(** * Token purchase pipeline: webhook receiver and completion poller

    A shallow embedding of

    - [src/server/index.ts], the [POST /api/webhook/stripe] handler, and
    - [src/client/src/components/StripeButton.tsx], the payment button with
      its polling loop,

    together with the properties the specification states about them.

    The handler is a function of the environment, the request and the
    store; what it sends and what it leaves in the store are its result.
    The [stripe] package and the [storage] module, which are not part of
    the two files, are interfaces.  Logging is left out. *)

From Stdlib Require Import ZArith Lia Bool Ascii String List.
From stdpp Require Import base option list gmap strings pretty.
Import ListNotations.

Local Open Scope Z_scope.

(** ** JavaScript values used by the handler *)

Module Js.

(** A JavaScript number as the handler sees it: the result of [parseInt] is
    an integer or [NaN].  Integers are kept exact; the rounding of values
    beyond 2^53 and the sign of zero play no role in any comparison made by
    the handler. *)
Inductive JsNum : Type :=
| NaN
| Num (z : Z).

(** [a <= b] on numbers: every comparison with [NaN] is false. *)
Definition le (a b : JsNum) : bool :=
  match a, b with
  | Num x, Num y => x <=? y
  | _, _ => false
  end.

(** A string-valued property that may be [undefined] or [null]. *)
Definition truthy (v : option string) : bool :=
  match v with
  | Some s => negb (String.eqb s "")
  | None => false
  end.

(** [a || b] where both sides are strings or nullish. *)
Definition or (a b : option string) : option string :=
  if truthy a then a else b.

(** [a || 'lit'] with a string literal on the right. *)
Definition or_lit (a : option string) (lit : string) : string :=
  match a with
  | Some s => if String.eqb s "" then lit else s
  | None => lit
  end.

(** [s.includes(sub)] *)
Fixpoint includes (s sub : string) : bool :=
  String.prefix sub s ||
  match s with
  | EmptyString => false
  | String _ rest => includes rest sub
  end.

(** White space skipped by [parseInt] (the characters below 128). *)
Definition isWhiteSpace (c : ascii) : bool :=
  let n := Z.of_nat (nat_of_ascii c) in
  ((9 <=? n) && (n <=? 13)) || (n =? 32).

Fixpoint trimStart (s : string) : string :=
  match s with
  | String c rest => if isWhiteSpace c then trimStart rest else s
  | EmptyString => EmptyString
  end.

(** Value of a character as a digit, up to radix 16. *)
Definition digitValue (c : ascii) : option Z :=
  let n := Z.of_nat (nat_of_ascii c) in
  if (48 <=? n) && (n <=? 57) then Some (n - 48)
  else if (97 <=? n) && (n <=? 102) then Some (n - 87)
  else if (65 <=? n) && (n <=? 70) then Some (n - 55)
  else None.

(** The longest prefix of [s] made of radix-[R] digits, as a number;
    [acc] is [None] as long as no digit has been read. *)
Fixpoint digits (R : Z) (s : string) (acc : option Z) : option Z :=
  match s with
  | String c rest =>
      match digitValue c with
      | Some d =>
          if d <? R then digits R rest (Some (R * default 0 acc + d)) else acc
      | None => acc
      end
  | EmptyString => acc
  end.

(** [parseInt(s)] with no radix argument: leading white space, an optional
    sign, an optional [0x]/[0X] prefix, then digits; [NaN] when there is no
    digit. *)
Definition parseInt (s : string) : JsNum :=
  let s1 := trimStart s in
  let '(sign, s2) :=
    match s1 with
    | String "-" rest => (-1, rest)
    | String "+" rest => (1, rest)
    | _ => (1, s1)
    end in
  let '(R, s3) :=
    match s2 with
    | String "0" (String "x" rest) => (16, rest)
    | String "0" (String "X" rest) => (16, rest)
    | _ => (10, s2)
    end in
  match digits R s3 None with
  | Some n => Num (sign * n)
  | None => NaN
  end.

(** A thrown value.  The handler reads [.message] and [.code] of what it
    catches; thrown values are taken to be [Error]-like objects whose
    [message], when present, is a string. *)
Record Error : Type := mkError {
  message : option string;
  code : option string
}.

End Js.

(** ** The webhook receiver ([src/server/index.ts], lines 8-80) *)

Module Webhook.

(** [process.env], as far as the handler reads it. *)
Record Env : Type := mkEnv {
  STRIPE_WEBHOOK_SECRET : option string;
  STRIPE_SECRET_KEY : option string
}.

(** The request: its headers and its raw body. *)
Record Request : Type := mkRequest {
  headers : gmap string string;
  body : string
}.

(** [event.data.object] of a checkout event: the checkout session as the
    processor echoes it back. *)
Record Session : Type := mkSession {
  session_id : string;
  metadata : option (gmap string string);
  client_reference_id : option string
}.

Record Event : Type := mkEvent {
  event_id : string;
  event_type : string;
  data_object : Session
}.

(** What [res] is asked to send. *)
Inductive Body : Type :=
| JsonReceived                 (* { received: true } *)
| JsonError (error : string)   (* { error: ... } *)
| Text (text : string).

Record Response : Type := mkResponse {
  status : Z;
  payload : Body
}.

(** The value [completeStripePaymentAndCredit] resolves to. *)
Record CreditResult : Type := mkCreditResult {
  alreadyCompleted : bool;
  newBalance : Z
}.

(** The [stripe] package: loading it and constructing the client (lines
    19-22), and [stripe.webhooks.constructEvent] (line 24).  Both may
    throw. *)
Class StripeLib : Type := {
  newStripe : option string -> Js.Error + unit;
  constructEvent : string -> option string -> string -> Js.Error + Event
}.

(** The [storage] module as the handler uses it (lines 47-50): loading it
    and calling its one operation, on a store of type [Σ].  The call
    resolves to a result or throws, and leaves a store behind. *)
Class Storage (Σ : Type) : Type := {
  completeStripePaymentAndCredit :
    string -> Js.JsNum -> Js.JsNum -> Σ -> (Js.Error + CreditResult) * Σ
}.

(** *** Handler monad: the store, the responses sent, [return] and [throw] *)

Section Monad.
Context {Σ : Type}.

Record World : Type := mkWorld {
  store : Σ;
  sent : list Response
}.

(** How a block of statements ends: it falls through with a value, the
    handler has executed [return], or an exception is in flight. *)
Inductive Outcome (A : Type) : Type :=
| Normal (a : A)
| Returned
| Thrown (e : Js.Error).

Definition M (A : Type) : Type := World -> Outcome A * World.

Definition ret {A} (a : A) : M A := fun w => (Normal A a, w).

Definition bind {A B} (m : M A) (k : A -> M B) : M B :=
  fun w =>
    match m w with
    | (Normal _ a, w') => k a w'
    | (Returned _, w') => (Returned B, w')
    | (Thrown _ e, w') => (Thrown B e, w')
    end.

Definition throw {A} (e : Js.Error) : M A := fun w => (Thrown A e, w).

(** [try { block } catch (err) { handler }]: a [return] inside the block
    leaves the function, only a throw reaches the handler. *)
Definition try_catch {A} (block : M A) (handler : Js.Error -> M A) : M A :=
  fun w =>
    match block w with
    | (Thrown _ e, w') => handler e w'
    | r => r
    end.

(** [return res.status(s).json(b)], [return res.status(s).send(b)]: one
    response goes out and the handler returns. *)
Definition respond {A} (r : Response) : M A :=
  fun w => (Returned A, {| store := store w; sent := sent w ++ [r] |}).

(** A call into a library that returns or throws. *)
Definition call {A} (r : Js.Error + A) : M A :=
  match r with
  | inl e => throw e
  | inr a => ret a
  end.

(** A call into the store. *)
Definition on_store {A} (op : Σ -> (Js.Error + A) * Σ) : M A :=
  fun w =>
    let '(r, σ') := op (store w) in
    (match r with inl e => Thrown A e | inr a => Normal A a end,
     {| store := σ'; sent := sent w |}).

End Monad.

Arguments World : clear implicits.
Arguments M : clear implicits.
Arguments Normal {A}.
Arguments Returned {A}.
Arguments Thrown {A}.

Notation "'let*' x ':=' m 'in' k" := (bind m (fun x => k))
  (at level 10, x name, m at level 100, k at level 200).

(** *** The handler *)

Definition received : Response := {| status := 200; payload := JsonReceived |}.

(** [res.sendStatus(200)] *)
Definition sendStatus200 : Response := {| status := 200; payload := Text "OK" |}.

Definition notConfigured : Response :=
  {| status := 500; payload := JsonError "Webhook not configured" |}.

Definition badSignature : Response :=
  {| status := 400; payload := Text "Bad signature" |}.

Definition pleaseRetry : Response :=
  {| status := 500; payload := JsonError "Temporary error, please retry" |}.

(** Lines 64-67: the test that separates transient from permanent errors. *)
Definition isTransient (error : Js.Error) : bool :=
  match Js.message error with
  | Some m =>
      Js.includes m "connection" || Js.includes m "timeout"
      || Js.includes m "ECONNREFUSED"
  | None => false
  end
  || match Js.code error with
     | Some c => String.eqb c "ENETUNREACH"
     | None => false
     end.

(** Line 38: [parseInt(session.metadata?.user_id ||
    session.client_reference_id || '0')] *)
Definition resolveUserId (session : Session) : Js.JsNum :=
  Js.parseInt
    (Js.or_lit
       (Js.or (metadata session ≫= (.!! "user_id")) (client_reference_id session))
       "0").

(** Line 39: [parseInt(session.metadata?.tokens || '0')] *)
Definition resolveTokens (session : Session) : Js.JsNum :=
  Js.parseInt (Js.or_lit (metadata session ≫= (.!! "tokens")) "0").

Section Handler.
Context {Σ : Type} `{StripeLib} `{Storage Σ}.

(** Lines 12-29: the configuration check and the verification of the
    event. *)
Definition verify (env : Env) (req : Request) : M Σ Event :=
  let sig := headers req !! "stripe-signature" in
  try_catch
    (match STRIPE_WEBHOOK_SECRET env with
     | Some secret =>
         if String.eqb secret "" then respond notConfigured
         else
           let* stripe := call (newStripe (STRIPE_SECRET_KEY env)) in
           call (constructEvent (body req) sig secret)
     | None => respond notConfigured
     end)
    (fun err => respond badSignature).

(** Lines 32-77: what is done with a verified event. *)
Definition reconcile (event : Event) : M Σ unit :=
  if String.eqb (event_type event) "checkout.session.completed" then
    let session := data_object event in
    try_catch
      (let userId := resolveUserId session in
       let tokens := resolveTokens session in
       if Js.le userId (Js.Num 0) || Js.le tokens (Js.Num 0) then
         respond received
       else
         let* result := on_store
           (completeStripePaymentAndCredit (session_id session) userId tokens) in
         if alreadyCompleted result then respond received
         else respond received)
      (fun error =>
         if isTransient error then respond pleaseRetry
         else respond received)
  else ret tt.

(** The handler, lines 8-80. *)
Definition webhook (env : Env) (req : Request) : M Σ unit :=
  let* event := verify env req in
  let* handled := reconcile event in
  respond sendStatus200.

(** The event is verified: the secret is configured, the client is
    constructed and [constructEvent] returns [event]. *)
Definition accepts (env : Env) (req : Request) (event : Event) : Prop :=
  exists secret,
    STRIPE_WEBHOOK_SECRET env = Some secret /\
    String.eqb secret "" = false /\
    newStripe (STRIPE_SECRET_KEY env) = inr tt /\
    constructEvent (body req) (headers req !! "stripe-signature") secret = inr event.

(** Verification fails: the secret is configured and the block of lines
    19-24 throws, which line 27 logs as "Signature verification failed". *)
Definition rejects (env : Env) (req : Request) : Prop :=
  exists secret,
    STRIPE_WEBHOOK_SECRET env = Some secret /\
    String.eqb secret "" = false /\
    ((exists e, newStripe (STRIPE_SECRET_KEY env) = inl e) \/
     (exists e, constructEvent (body req) (headers req !! "stripe-signature") secret = inl e)).

(** The guard of line 41. *)
Definition invalidPayload (session : Session) : bool :=
  Js.le (resolveUserId session) (Js.Num 0) || Js.le (resolveTokens session) (Js.Num 0).


(** One delivery against a store: the handler runs with nothing sent yet. *)
Definition deliver (env : Env) (req : Request) (σ : Σ) : Outcome unit * World Σ :=
  webhook env req {| store := σ; sent := [] |}.

(** The same request delivered [n] times in a row: what each delivery
    sent, and the store left behind. *)
Fixpoint redeliver (n : nat) (env : Env) (req : Request) (σ : Σ)
  : list (list Response) * Σ :=
  match n with
  | O => ([], σ)
  | S n' =>
      let w := snd (deliver env req σ) in
      let '(rs, σ') := redeliver n' env req (store w) in
      (sent w :: rs, σ')
  end.

End Handler.

End Webhook.

(** ** The session store *)

Module SessionStore.

Inductive Status : Type :=
| pending
| completed
| failed.

Record PaymentSession : Type := mkPaymentSession {
  userId : Z;
  tokenAmount : Z;
  status : Status;
  completedAt : option Z
}.

(** The store: payment sessions by [sessionId], token balances by
    [userId], and the time a completion is stamped with. *)
Record Store : Type := mkStore {
  sessions : gmap string PaymentSession;
  balances : gmap Z Z;
  now : Z
}.

Definition sessionNotFound : Js.Error :=
  {| Js.message := Some "Payment session not found"; Js.code := None |}.

Definition userNotFound : Js.Error :=
  {| Js.message := Some "User not found"; Js.code := None |}.

Definition notAnInteger : Js.Error :=
  {| Js.message := Some "invalid input syntax for type integer";
     Js.code := None |}.

(** Modelled from the spec: [storage.completeStripePaymentAndCredit] of
    [server/storage.ts], which is not among the sources.  The spec (4.2)
    gives it as one indivisible unit: look the session up by [sessionId];
    if its status is already [completed], do nothing further and report
    [alreadyCompleted = true] with the current balance; otherwise set the
    status to [completed], stamp the completion time, increment the user's
    balance by [tokenAmount] and report [alreadyCompleted = false] with the
    new balance.  The spec is silent on a session or a user that does not
    exist; here the operation then throws and changes nothing. *)
Definition completeAndCredit (sessionId : string) (uid amount : Z) (σ : Store)
  : (Js.Error + Webhook.CreditResult) * Store :=
  match sessions σ !! sessionId with
  | None => (inl sessionNotFound, σ)
  | Some s =>
      match balances σ !! uid with
      | None => (inl userNotFound, σ)
      | Some balance =>
          match status s with
          | completed =>
              (inr {| Webhook.alreadyCompleted := true;
                      Webhook.newBalance := balance |}, σ)
          | _ =>
              (inr {| Webhook.alreadyCompleted := false;
                      Webhook.newBalance := balance + amount |},
               {| sessions :=
                    <[sessionId :=
                        {| userId := userId s;
                           tokenAmount := tokenAmount s;
                           status := completed;
                           completedAt := Some (now σ) |}]> (sessions σ);
                  balances := <[uid := balance + amount]> (balances σ);
                  now := now σ |})
          end
      end
  end.

(** Modelled from the spec: the operation behind the handler's [storage]
    interface.  The spec gives it for integer arguments; on [NaN] it throws
    and changes nothing. *)
#[export] Instance storage : Webhook.Storage Store := {|
  Webhook.completeStripePaymentAndCredit sessionId u t σ :=
    match u, t with
    | Js.Num uid, Js.Num amount => completeAndCredit sessionId uid amount σ
    | _, _ => (inl notAnInteger, σ)
    end
|}.

Definition isCompleted (st : Status) : bool :=
  match st with
  | completed => true
  | _ => false
  end.

(** [n] invocations in a row with the same arguments: what each reported,
    and the store left behind. *)
Fixpoint invoke (n : nat) (sessionId : string) (uid amount : Z) (σ : Store)
  : list (Js.Error + Webhook.CreditResult) * Store :=
  match n with
  | O => ([], σ)
  | S n' =>
      let '(r, σ1) := completeAndCredit sessionId uid amount σ in
      let '(rs, σ2) := invoke n' sessionId uid amount σ1 in
      (r :: rs, σ2)
  end.

End SessionStore.

(** ** Stand-ins for the collaborators, for running the handler *)

Module Doubles.

(** A [stripe] package whose client always constructs and whose
    [constructEvent] gives one fixed verdict. *)
Definition stripe (verdict : Js.Error + Webhook.Event) : Webhook.StripeLib := {|
  Webhook.newStripe _ := inr tt;
  Webhook.constructEvent _ _ _ := verdict
|}.

(** A [stripe] package whose client constructor rejects a missing API
    key. *)
Definition strictStripe (verdict : Js.Error + Webhook.Event) : Webhook.StripeLib := {|
  Webhook.newStripe key :=
    if Js.truthy key then inr tt
    else inl {| Js.message := Some "Neither apiKey nor config.authenticator provided";
                Js.code := None |};
  Webhook.constructEvent _ _ _ := verdict
|}.

(** A store that cannot be reached: every call throws [e].  The store
    itself counts the calls made to it. *)
Definition unreachable (e : Js.Error) : Webhook.Storage nat := {|
  Webhook.completeStripePaymentAndCredit _ _ _ calls := (inl e, S calls)
|}.

(** A store that credits whatever it is asked to: it keeps the arguments of
    every call. *)
Definition recording : Webhook.Storage (list (string * Js.JsNum * Js.JsNum)) := {|
  Webhook.completeStripePaymentAndCredit sessionId u t calls :=
    (inr {| Webhook.alreadyCompleted := false; Webhook.newBalance := 0 |},
     calls ++ [(sessionId, u, t)])
|}.

End Doubles.

(** ** Concrete requests, events and stores *)

Module Sample.

Definition env : Webhook.Env :=
  {| Webhook.STRIPE_WEBHOOK_SECRET := Some "whsec_test";
     Webhook.STRIPE_SECRET_KEY := Some "sk_test" |}.

Definition unconfigured : Webhook.Env :=
  {| Webhook.STRIPE_WEBHOOK_SECRET := None;
     Webhook.STRIPE_SECRET_KEY := Some "sk_test" |}.

Definition req : Webhook.Request :=
  {| Webhook.headers := {[ "stripe-signature" := "t=1,v1=5257a869" ]};
     Webhook.body := "{}" |}.

(** A checkout-completed event for session [sid] carrying the given
    metadata. *)
Definition checkout (sid user_id tokens : string) : Webhook.Event :=
  {| Webhook.event_id := "evt_1";
     Webhook.event_type := "checkout.session.completed";
     Webhook.data_object :=
       {| Webhook.session_id := sid;
          Webhook.metadata := Some (<["user_id" := user_id]> {[ "tokens" := tokens ]});
          Webhook.client_reference_id := None |} |}.

Definition refund : Webhook.Event :=
  {| Webhook.event_id := "evt_2";
     Webhook.event_type := "charge.refunded";
     Webhook.data_object :=
       {| Webhook.session_id := "ch_1";
          Webhook.metadata := None;
          Webhook.client_reference_id := None |} |}.

Definition badSignatureError : Js.Error :=
  {| Js.message := Some "No signatures found matching the expected signature for payload";
     Js.code := None |}.

Definition connectionRefused : Js.Error :=
  {| Js.message := Some "connect ECONNREFUSED 127.0.0.1:5432";
     Js.code := Some "ECONNREFUSED" |}.

Definition networkUnreachable : Js.Error :=
  {| Js.message := Some "network is down";
     Js.code := Some "ENETUNREACH" |}.

Definition constraintViolation : Js.Error :=
  {| Js.message := Some "duplicate key value violates unique constraint";
     Js.code := Some "23505" |}.

(** User 42 bought 1000 tokens in session [cs_1], not yet paid; the
    balance is 10. *)
Definition store : SessionStore.Store :=
  {| SessionStore.sessions :=
       {[ "cs_1" := {| SessionStore.userId := 42;
                       SessionStore.tokenAmount := 1000;
                       SessionStore.status := SessionStore.pending;
                       SessionStore.completedAt := None |} ]};
     SessionStore.balances := {[ 42 := 10 ]};
     SessionStore.now := 1700000000 |}.

End Sample.

(** ** The payment button ([src/client/src/components/StripeButton.tsx]) *)

Module StripeButton.

(** A callback handed in by the parent: it returns, or it throws. *)
Inductive Callback : Type :=
| Returns
| Throws.

Record Props : Type := mkProps {
  amount : string;
  tokens : Z;
  onSuccess : option Callback;
  onError : option Callback
}.

(** What the component does to the world around it. *)
Inductive Effect : Type :=
| CreateCheckout (amount : string)   (* POST /api/create-checkout-session *)
| WindowOpen (url : string)
| StatusLookup (sessionId : string)  (* GET /api/payment-status/:sessionId *)
| Toast (title : string)
| InvalidateQueries
| CallOnSuccess
| CallOnError
| ConsoleError (what : string).

(** [setTimeout(pollPaymentStatus, delay)]; the closure holds
    [data.sessionId]. *)
Record Timer : Type := mkTimer {
  delay : Z;
  sessionId : string
}.

(** The component instance: the mutation's [isPending], the [isProcessing]
    state, the timers still to fire, the status lookups awaiting their
    response, and what has been done so far (latest last). *)
Record UI : Type := mkUI {
  isPending : bool;
  isProcessing : bool;
  timers : list Timer;
  awaiting : list string;
  log : list Effect
}.

Definition initial : UI :=
  {| isPending := false; isProcessing := false;
     timers := []; awaiting := []; log := [] |}.

(** The response of [POST /api/create-checkout-session]. *)
Record CheckoutData : Type := mkCheckoutData {
  url : option string;
  data_sessionId : string
}.

(** What the awaited status lookup comes back with: the request or the
    decoding of the response throws, or [statusData.status] is read. *)
Inductive LookupOutcome : Type :=
| LookupThrows
| LookupStatus (status : string).

Definition setIsProcessing (b : bool) (ui : UI) : UI :=
  {| isPending := isPending ui; isProcessing := b;
     timers := timers ui; awaiting := awaiting ui; log := log ui |}.

Definition setIsPending (b : bool) (ui : UI) : UI :=
  {| isPending := b; isProcessing := isProcessing ui;
     timers := timers ui; awaiting := awaiting ui; log := log ui |}.

Definition perform (e : Effect) (ui : UI) : UI :=
  {| isPending := isPending ui; isProcessing := isProcessing ui;
     timers := timers ui; awaiting := awaiting ui; log := log ui ++ [e] |}.

Definition setTimeout (d : Z) (sid : string) (ui : UI) : UI :=
  {| isPending := isPending ui; isProcessing := isProcessing ui;
     timers := timers ui ++ [{| delay := d; sessionId := sid |}];
     awaiting := awaiting ui; log := log ui |}.

(** An optional callback is invoked ([cb?.()]): [None] when it threw,
    otherwise the state after the call. *)
Definition invoke (cb : option Callback) (e : Effect) (ui : UI) : option UI :=
  match cb with
  | None => Some ui
  | Some Returns => Some (perform e ui)
  | Some Throws => None
  end.

(** Lines 36-67, from the point where the awaited lookup comes back.  An
    exception anywhere in the [try] block, the callbacks included, lands in
    the [catch], which schedules the next poll. *)
Definition pollPaymentStatus (props : Props) (sid : string)
    (outcome : LookupOutcome) (ui : UI) : UI :=
  let catch ui' :=
    setTimeout 2000 sid (perform (ConsoleError "Error checking payment status:") ui') in
  match outcome with
  | LookupThrows => catch ui
  | LookupStatus st =>
      if String.eqb st "completed" then
        let ui1 :=
          perform InvalidateQueries
            (perform (Toast "Payment successful!") (setIsProcessing false ui)) in
        match invoke (onSuccess props) CallOnSuccess ui1 with
        | Some ui2 => ui2
        | None => catch (perform CallOnSuccess ui1)
        end
      else if String.eqb st "failed" then
        let ui1 := perform (Toast "Payment failed") (setIsProcessing false ui) in
        match invoke (onError props) CallOnError ui1 with
        | Some ui2 => ui2
        | None => catch (perform CallOnError ui1)
        end
      else setTimeout 2000 sid ui
  end.

(** Lines 27-80: [onSuccess] of the mutation.  [opens] tells whether
    [window.open] returned a window. *)
Definition checkoutCreated (data : CheckoutData) (opens : bool) (ui : UI) : UI :=
  match url data with
  | Some u =>
      if String.eqb u "" then ui
      else
        let ui1 := perform (WindowOpen u) ui in
        if opens then setTimeout 3000 (data_sessionId data) (setIsProcessing true ui1)
        else perform (Toast "Popup blocked") ui1
  | None => ui
  end.

(** Lines 81-89: [onError] of the mutation. *)
Definition checkoutFailed (props : Props) (ui : UI) : UI :=
  let ui1 :=
    perform (Toast "Payment setup failed")
      (perform (ConsoleError "Stripe checkout error:") ui) in
  match invoke (onError props) CallOnError ui1 with
  | Some ui2 => ui2
  | None => perform CallOnError ui1
  end.

(** Line 99: the [disabled] prop of the button. *)
Definition disabled (ui : UI) : bool := isPending ui || isProcessing ui.

(** Lines 92-94: [handleClick] *)
Definition handleClick (props : Props) (ui : UI) : UI :=
  setIsPending true (perform (CreateCheckout (amount props)) ui).

(** What can happen to a mounted component. *)
Inductive Event : Type :=
| Click
| MutationSucceeds (data : CheckoutData) (opens : bool)
| MutationFails
| TimerFires (i : nat)
| LookupReturns (i : nat) (outcome : LookupOutcome).

(** One step of the event loop.  A click reaches [handleClick] only when
    the button is not disabled; the mutation settles only while it is
    pending; the [i]-th timer fires by starting its lookup; the [i]-th
    awaited lookup comes back into [pollPaymentStatus].  An event that
    does not apply leaves the component as it is. *)
Definition step (props : Props) (e : Event) (ui : UI) : UI :=
  match e with
  | Click => if disabled ui then ui else handleClick props ui
  | MutationSucceeds data opens =>
      if isPending ui then setIsPending false (checkoutCreated data opens ui)
      else ui
  | MutationFails =>
      if isPending ui then setIsPending false (checkoutFailed props ui)
      else ui
  | TimerFires i =>
      match timers ui !! i with
      | Some t =>
          {| isPending := isPending ui; isProcessing := isProcessing ui;
             timers := delete i (timers ui);
             awaiting := awaiting ui ++ [sessionId t];
             log := log ui ++ [StatusLookup (sessionId t)] |}
      | None => ui
      end
  | LookupReturns i outcome =>
      match awaiting ui !! i with
      | Some sid =>
          pollPaymentStatus props sid outcome
            {| isPending := isPending ui; isProcessing := isProcessing ui;
               timers := timers ui;
               awaiting := delete i (awaiting ui);
               log := log ui |}
      | None => ui
      end
  end.

Fixpoint run (props : Props) (es : list Event) (ui : UI) : UI :=
  match es with
  | [] => ui
  | e :: es' => run props es' (step props e ui)
  end.

(** The polling chains alive: a timer to fire or a lookup in flight. *)
Definition chains (ui : UI) : nat := (length (timers ui) + length (awaiting ui))%nat.

Definition isLookup (e : Effect) : bool :=
  match e with
  | StatusLookup _ => true
  | _ => false
  end.

(** Status lookups made so far. *)
Definition lookups (ui : UI) : nat := length (filter (fun e => isLookup e = true) (log ui)).

(** The schedule of one polling chain: its timer fires and the lookup
    comes back, once per outcome. *)
Definition polls (outcomes : list LookupOutcome) : list Event :=
  flat_map (fun o => [TimerFires 0; LookupReturns 0 o]) outcomes.

(** The outcomes on which the poller goes on polling, whatever the
    callbacks do: a lookup that throws, and any status other than
    [completed] and [failed]. *)
Definition keepsPolling (o : LookupOutcome) : bool :=
  match o with
  | LookupThrows => true
  | LookupStatus st => negb (String.eqb st "completed" || String.eqb st "failed")
  end.

(** A chain that is alone: one timer, no lookup in flight. *)
Definition alone (sid : string) (ui : UI) : Prop :=
  exists d, timers ui = [{| delay := d; sessionId := sid |}] /\ awaiting ui = [].

(** The callbacks of [props] return. *)
Definition callbacksReturn (props : Props) : Prop :=
  onSuccess props <> Some Throws /\ onError props <> Some Throws.

(** The component right after a checkout session [sid] was created and its
    window opened, from a fresh mount. *)
Definition started (props : Props) (sid : string) : UI :=
  run props
    [Click; MutationSucceeds {| url := Some "https://checkout"; data_sessionId := sid |} true]
    initial.

Definition isCreateCheckout (e : Effect) : bool :=
  match e with
  | CreateCheckout _ => true
  | _ => false
  end.

(** Checkout attempts made so far. *)
Definition attempts (ui : UI) : nat :=
  length (filter (fun e => isCreateCheckout e = true) (log ui)).



(** Props whose callbacks return, and props whose [onSuccess] throws. *)
Definition quietProps : Props :=
  {| amount := "9.99"; tokens := 1000;
     onSuccess := Some Returns; onError := Some Returns |}.

Definition throwingProps : Props :=
  {| amount := "9.99"; tokens := 1000;
     onSuccess := Some Throws; onError := None |}.

End StripeButton.

(** ** Decimal text *)

Module Decimal.



End Decimal.

(** ** The rest of [src/server/index.ts] *)

Module Server.

(** *** Line 138: the port *)


(** *** Lines 86-114: the request log *)

(** Text whose length matters is kept as its UTF-16 code units, which is
    what [.length] and [.slice] count. *)
Definition units (s : string) : list N :=
  N_of_ascii <$> list_ascii_of_string s.

(** The one code unit of the ellipsis character. *)
Definition ellipsis : N := 8230.

(** [s.startsWith(p)] *)
Fixpoint startsWith (s p : list N) {struct p} : bool :=
  match p, s with
  | [], _ => true
  | c :: p', d :: s' => (c =? d)%N && startsWith s' p'
  | _ :: _, [] => false
  end.

(** What the [finish] callback sees: the request's method and path, the
    status code, the milliseconds since the request came in, and the JSON
    text of the body last handed to [res.json], when there was one and it
    was truthy. *)
Record Finished : Type := mkFinished {
  method : list N;
  path : list N;
  statusCode : Z;
  duration : Z;
  capturedJsonResponse : option (list N)
}.

(** Line 100 and lines 101-103: the line before it is cut. *)
Definition fullLine (r : Finished) : list N :=
  let logLine :=
    method r ++ units " " ++ path r ++ units " " ++ units (pretty (statusCode r))
    ++ units " in " ++ units (pretty (duration r)) ++ units "ms" in
  match capturedJsonResponse r with
  | Some json => logLine ++ units " :: " ++ json
  | None => logLine
  end.

(** Lines 97-111: what is handed to [log], if anything. *)
Definition requestLog (r : Finished) : option (list N) :=
  if startsWith (path r) (units "/api") then
    let logLine := fullLine r in
    Some (if (80 <? length logLine)%nat then take 79 logLine ++ [ellipsis]
          else logLine)
  else None.

(** *** Lines 119-125: the error handler *)





End Server.

(** ** A store that counts the calls made to it *)

Module Instrumented.

(** The storage [inner] with a counter beside its store. *)
Definition counting {Σ : Type} (inner : Webhook.Storage Σ) : Webhook.Storage (Σ * nat) := {|
  Webhook.completeStripePaymentAndCredit sessionId u t st :=
    let '(r, σ') :=
      Webhook.completeStripePaymentAndCredit (Storage := inner) sessionId u t (fst st) in
    (r, (σ', S (snd st)))
|}.

End Instrumented.

(** ** What the button shows *)

Module Rendering.

Inductive Icon : Type :=
| Loader2
| CreditCard.

(** Lines 103-118: the content of the button. *)
Definition content (ui : StripeButton.UI) : Icon * string :=
  if StripeButton.isPending ui then (Loader2, "Setting up payment...")
  else if StripeButton.isProcessing ui then (Loader2, "Payment processing...")
  else (CreditCard, "Pay with Stripe").

(** What the user can notice: everything but the status lookups and the
    console. *)
Definition visible (e : StripeButton.Effect) : bool :=
  match e with
  | StripeButton.StatusLookup _ => false
  | StripeButton.ConsoleError _ => false
  | _ => true
  end.

Definition seen (ui : StripeButton.UI) : list StripeButton.Effect :=
  filter (fun e => visible e = true) (StripeButton.log ui).

Definition isWindowOpen (e : StripeButton.Effect) : bool :=
  match e with
  | StripeButton.WindowOpen _ => true
  | _ => false
  end.

(** Checkout windows opened so far. *)
Definition windows (ui : StripeButton.UI) : nat :=
  length (filter (fun e => isWindowOpen e = true) (StripeButton.log ui)).

Definition isClick (e : StripeButton.Event) : bool :=
  match e with
  | StripeButton.Click => true
  | _ => false
  end.

(** Clicks among the events. *)
Definition clicks (es : list StripeButton.Event) : nat :=
  length (filter (fun e => isClick e = true) es).

(** The session ids the checkout creations among the events came back
    with. *)
Definition created (es : list StripeButton.Event) : list string :=
  flat_map (fun e => match e with
                     | StripeButton.MutationSucceeds data _ =>
                         [StripeButton.data_sessionId data]
                     | _ => []
                     end) es.

(** Every timer is for one of the sessions [ids] and waits 3000 or 2000
    ms; every lookup in flight or made so far is for one of [ids]. *)
Definition pollsOnly (ids : list string) (ui : StripeButton.UI) : Prop :=
  Forall (fun t => StripeButton.sessionId t ∈ ids /\
                   (StripeButton.delay t = 3000 \/ StripeButton.delay t = 2000))
         (StripeButton.timers ui) /\
  Forall (fun sid => sid ∈ ids) (StripeButton.awaiting ui) /\
  Forall (fun e => match e with
                   | StripeButton.StatusLookup sid => sid ∈ ids
                   | _ => True
                   end) (StripeButton.log ui).

End Rendering.

(** ** More concrete events *)

Module MoreSamples.


(** A checkout-completed event with no metadata and no reference. *)
Definition anonymous : Webhook.Event :=
  {| Webhook.event_id := "evt_4";
     Webhook.event_type := "checkout.session.completed";
     Webhook.data_object :=
       {| Webhook.session_id := "cs_4";
          Webhook.metadata := None;
          Webhook.client_reference_id := None |} |}.

(** A request as the [finish] callback of the request log sees it. *)
Definition finished (path : string) (captured : option string) : Server.Finished :=
  {| Server.method := Server.units "POST";
     Server.path := Server.units path;
     Server.statusCode := 200;
     Server.duration := 12;
     Server.capturedJsonResponse := Server.units <$> captured |}.

End MoreSamples.

(** * Properties *)

(** ** [parseInt] and [includes] on a few strings *)

Example parseInt_42 : Js.parseInt "42" = Js.Num 42.
Proof. reflexivity. Qed.

Example parseInt_neg5 : Js.parseInt "-5" = Js.Num (-5).
Proof. reflexivity. Qed.

Example parseInt_trailing : Js.parseInt "  12abc" = Js.Num 12.
Proof. reflexivity. Qed.

Example parseInt_hex : Js.parseInt "0x1F" = Js.Num 31.
Proof. reflexivity. Qed.

Example parseInt_abc : Js.parseInt "abc" = Js.NaN.
Proof. reflexivity. Qed.

Example parseInt_empty : Js.parseInt "" = Js.NaN.
Proof. reflexivity. Qed.

Example includes_mid : Js.includes "connect ECONNREFUSED 127.0.0.1:5432" "ECONNREFUSED" = true.
Proof. reflexivity. Qed.

Example includes_case : Js.includes "Connection terminated" "connection" = false.
Proof. reflexivity. Qed.

(** ** The webhook receiver *)

Section WebhookProperties.
Context {Σ : Type} `{Webhook.StripeLib} `{Webhook.Storage Σ}.
Import Webhook.

(** The secret is configured: [process.env.STRIPE_WEBHOOK_SECRET] is a
    non-empty string. *)
Lemma configured_secret env :
  Js.truthy (STRIPE_WEBHOOK_SECRET env) = true ->
  exists secret,
    STRIPE_WEBHOOK_SECRET env = Some secret /\ String.eqb secret "" = false.
Proof.
  unfold Js.truthy. destruct (STRIPE_WEBHOOK_SECRET env) as [secret|]; [|discriminate].
  intros Hs. exists secret. split; [reflexivity|].
  destruct (String.eqb secret ""); [discriminate|reflexivity].
Qed.

(** Verification never touches the store, whatever it decides. *)
Lemma verify_keeps_store env req (w : World Σ) :
  store (snd (verify env req w)) = store w.
Proof.
  unfold verify, try_catch, respond, bind, call, throw, ret.
  destruct (STRIPE_WEBHOOK_SECRET env) as [secret|]; [|reflexivity].
  destruct (String.eqb secret ""); [reflexivity|].
  destruct (newStripe (STRIPE_SECRET_KEY env)) as [e|[]]; [reflexivity|].
  destruct (constructEvent (body req) (headers req !! "stripe-signature") secret);
    reflexivity.
Qed.

(** Without a secret the verification block answers 500 by itself. *)
Lemma verify_unconfigured env req (w : World Σ) :
  Js.truthy (STRIPE_WEBHOOK_SECRET env) = false ->
  verify env req w =
    (Returned, {| store := store w; sent := sent w ++ [notConfigured] |}).
Proof.
  unfold Js.truthy, verify, try_catch, respond.
  destruct (STRIPE_WEBHOOK_SECRET env) as [secret|]; [|reflexivity].
  destruct (String.eqb secret ""); [reflexivity|discriminate].
Qed.

(** With a secret, a throw of the client constructor or of
    [constructEvent] is answered 400. *)
Lemma verify_throws env req (w : World Σ) secret :
  STRIPE_WEBHOOK_SECRET env = Some secret ->
  String.eqb secret "" = false ->
  (exists e, newStripe (STRIPE_SECRET_KEY env) = inl e) \/
  (exists e, constructEvent (body req) (headers req !! "stripe-signature") secret = inl e) ->
  verify env req w =
    (Returned, {| store := store w; sent := sent w ++ [badSignature] |}).
Proof.
  intros Hs Hne Hthrow.
  unfold verify, try_catch, respond, bind, call, throw, ret.
  rewrite Hs, Hne.
  destruct (newStripe (STRIPE_SECRET_KEY env)) as [e|[]] eqn:Hnew; [reflexivity|].
  destruct Hthrow as [[e He]|[e He]]; [discriminate|].
  rewrite He. reflexivity.
Qed.

(** With a secret and no throw, the verified event is handed on. *)
Lemma verify_accepts env req (w : World Σ) secret event :
  STRIPE_WEBHOOK_SECRET env = Some secret ->
  String.eqb secret "" = false ->
  newStripe (STRIPE_SECRET_KEY env) = inr tt ->
  constructEvent (body req) (headers req !! "stripe-signature") secret = inr event ->
  verify env req w = (Normal event, w).
Proof.
  intros Hs Hne Hnew Hev.
  unfold verify, try_catch, respond, bind, call, throw, ret.
  rewrite Hs, Hne, Hnew, Hev. reflexivity.
Qed.

Lemma deliver_unconfigured env req (σ : Σ) :
  Js.truthy (STRIPE_WEBHOOK_SECRET env) = false ->
  deliver env req σ = (Returned, {| store := σ; sent := [notConfigured] |}).
Proof.
  intros Hs. unfold deliver, webhook, bind.
  rewrite verify_unconfigured by exact Hs. reflexivity.
Qed.

(** C5, as amended: when the webhook secret is not configured (unset or
    empty), every request is answered with the server-error response
    500 "Webhook not configured", nothing else is sent, and the store is
    left exactly as it was: no balance is credited. *)
Theorem unconfigured_secret_answers_500 env req (σ : Σ) :
  Js.truthy (STRIPE_WEBHOOK_SECRET env) = false ->
  deliver env req σ = (Returned, {| store := σ; sent := [notConfigured] |}) /\
  status notConfigured = 500.
Proof.
  intros Hs. split; [|reflexivity]. apply deliver_unconfigured, Hs.
Qed.


(** The three ways verification can end. *)
Lemma verification_cases env req :
  Js.truthy (STRIPE_WEBHOOK_SECRET env) = false \/
  rejects env req \/
  exists event, accepts env req event.
Proof.
  destruct (Js.truthy (STRIPE_WEBHOOK_SECRET env)) eqn:Hs; [|left; reflexivity].
  right. destruct (configured_secret env Hs) as (secret & Hsec & Hne).
  destruct (newStripe (STRIPE_SECRET_KEY env)) as [e|[]] eqn:Hnew.
  - left. exists secret. eauto 6.
  - destruct (constructEvent (body req) (headers req !! "stripe-signature") secret)
      as [e|event] eqn:Hev.
    + left. exists secret. eauto 6.
    + right. exists event, secret. auto.
Qed.

Lemma deliver_rejects env req (σ : Σ) :
  rejects env req ->
  deliver env req σ = (Returned, {| store := σ; sent := [badSignature] |}).
Proof.
  intros (secret & Hs & Hne & Hthrow). unfold deliver, webhook, bind.
  rewrite (verify_throws env req _ secret Hs Hne Hthrow). reflexivity.
Qed.

(** After verification the handler is [reconcile] followed by the closing
    [sendStatus(200)]. *)
Lemma deliver_accepts env req (σ : Σ) event :
  accepts env req event ->
  deliver env req σ =
    (let* handled := reconcile event in respond sendStatus200)
      {| store := σ; sent := [] |}.
Proof.
  intros (secret & Hs & Hne & Hnew & Hev). unfold deliver, webhook.
  unfold bind at 1.
  rewrite (verify_accepts env req _ secret event Hs Hne Hnew Hev). reflexivity.
Qed.

(** A completed checkout whose payload passes the guard goes to the store,
    and the answer follows what the store call did. *)
Lemma deliver_reconciles env req (σ : Σ) event :
  accepts env req event ->
  event_type event = "checkout.session.completed"%string ->
  invalidPayload (data_object event) = false ->
  deliver env req σ =
    (let '(r, σ') :=
       completeStripePaymentAndCredit (session_id (data_object event))
         (resolveUserId (data_object event)) (resolveTokens (data_object event)) σ in
     (Returned,
      {| store := σ';
         sent := [match r with
                  | inl e => if isTransient e then pleaseRetry else received
                  | inr _ => received
                  end] |})).
Proof.
  intros Hacc Htype Hvalid. rewrite (deliver_accepts env req σ event Hacc).
  unfold reconcile, invalidPayload in *. rewrite Htype, String.eqb_refl, Hvalid.
  unfold bind, try_catch, on_store, respond. simpl.
  destruct (completeStripePaymentAndCredit _ _ _ σ) as [[e|result] σ'].
  - simpl. destruct (isTransient e); reflexivity.
  - simpl. destruct (alreadyCompleted result); reflexivity.
Qed.

(** A completed checkout whose payload trips the guard of line 41 is
    acknowledged and the store is not called. *)
Lemma deliver_invalid env req (σ : Σ) event :
  accepts env req event ->
  event_type event = "checkout.session.completed"%string ->
  invalidPayload (data_object event) = true ->
  deliver env req σ = (Returned, {| store := σ; sent := [received] |}).
Proof.
  intros Hacc Htype Hinv. rewrite (deliver_accepts env req σ event Hacc).
  unfold reconcile, invalidPayload in *. rewrite Htype, String.eqb_refl, Hinv.
  reflexivity.
Qed.

Lemma deliver_ignores env req (σ : Σ) event :
  accepts env req event ->
  event_type event <> "checkout.session.completed"%string ->
  deliver env req σ = (Returned, {| store := σ; sent := [sendStatus200] |}).
Proof.
  intros Hacc Htype. rewrite (deliver_accepts env req σ event Hacc).
  unfold reconcile.
  destruct (String.eqb_spec (event_type event) "checkout.session.completed") as [E|_];
    [contradiction|].
  reflexivity.
Qed.

(** C7: a verified event of any type other than
    ["checkout.session.completed"] is answered with [sendStatus(200)] and
    nothing else, and the store is left exactly as it was, whatever the
    storage operation would have done. *)
Theorem other_event_types_ignored env req (σ : Σ) event :
  accepts env req event ->
  event_type event <> "checkout.session.completed"%string ->
  deliver env req σ = (Returned, {| store := σ; sent := [sendStatus200] |}) /\
  status sendStatus200 = 200.
Proof.
  intros Hacc Htype. split; [|reflexivity].
  apply (deliver_ignores env req σ event Hacc Htype).
Qed.

(** The test of lines 64-67, spelled out. *)
Lemma isTransient_spec e :
  isTransient e = true <->
  (exists m, Js.message e = Some m /\
     (Js.includes m "connection" = true \/ Js.includes m "timeout" = true \/
      Js.includes m "ECONNREFUSED" = true)) \/
  Js.code e = Some "ENETUNREACH"%string.
Proof.
  unfold isTransient. rewrite orb_true_iff. split.
  - intros [Hm|Hc].
    + left. destruct (Js.message e) as [m|]; [|discriminate].
      exists m. split; [reflexivity|].
      rewrite !orb_true_iff in Hm. tauto.
    + right. destruct (Js.code e) as [c|]; [|discriminate].
      apply String.eqb_eq in Hc. congruence.
  - intros [(m & Hm & Hinc)|Hc].
    + left. rewrite Hm, !orb_true_iff. tauto.
    + right. rewrite Hc. reflexivity.
Qed.

(** C3, as amended: when the store call made for a verified
    checkout-completed event throws [e], the answer is 500 "Temporary
    error, please retry" if the message of [e] contains "connection",
    "timeout" or "ECONNREFUSED" or the code of [e] is "ENETUNREACH", and
    the acknowledgment 200 otherwise. *)
Theorem reconciliation_failure_response env req (σ σ' : Σ) event e :
  accepts env req event ->
  event_type event = "checkout.session.completed"%string ->
  invalidPayload (data_object event) = false ->
  completeStripePaymentAndCredit (session_id (data_object event))
    (resolveUserId (data_object event)) (resolveTokens (data_object event)) σ
    = (inl e, σ') ->
  ((exists m, Js.message e = Some m /\
      (Js.includes m "connection" = true \/ Js.includes m "timeout" = true \/
       Js.includes m "ECONNREFUSED" = true)) \/
   Js.code e = Some "ENETUNREACH"%string ->
   deliver env req σ = (Returned, {| store := σ'; sent := [pleaseRetry] |})) /\
  (~ ((exists m, Js.message e = Some m /\
      (Js.includes m "connection" = true \/ Js.includes m "timeout" = true \/
       Js.includes m "ECONNREFUSED" = true)) \/
      Js.code e = Some "ENETUNREACH"%string) ->
   deliver env req σ = (Returned, {| store := σ'; sent := [received] |})) /\
  status pleaseRetry = 500 /\ status received = 200.
Proof.
  intros Hacc Htype Hvalid Hcall.
  rewrite (deliver_reconciles env req σ event Hacc Htype Hvalid), Hcall.
  repeat split.
  - intros Ht. apply isTransient_spec in Ht. rewrite Ht. reflexivity.
  - intros Hn. destruct (isTransient e) eqn:Ht; [|reflexivity].
    exfalso. apply Hn, isTransient_spec, Ht.
Qed.

Lemma accepts_configured env req event :
  accepts env req event -> Js.truthy (STRIPE_WEBHOOK_SECRET env) = true.
Proof.
  intros (secret & Hs & Hne & _). unfold Js.truthy. rewrite Hs, Hne. reflexivity.
Qed.


Lemma accepts_functional env req event event' :
  accepts env req event -> accepts env req event' -> event = event'.
Proof.
  intros (s1 & Hs1 & _ & _ & He1) (s2 & Hs2 & _ & _ & He2).
  rewrite Hs1 in Hs2. injection Hs2 as <-. congruence.
Qed.

Lemma accepts_not_rejects env req event :
  accepts env req event -> ~ rejects env req.
Proof.
  intros (s1 & Hs1 & _ & Hn1 & He1) (s2 & Hs2 & _ & Hthrow).
  rewrite Hs1 in Hs2. injection Hs2 as <-.
  destruct Hthrow as [[e He]|[e He]]; congruence.
Qed.


End WebhookProperties.

(** ** Validation of the payload *)

Section Validation.
Import Webhook.

(** The guard of line 41 fires exactly on a resolved integer that is zero
    or negative. *)
Lemma invalidPayload_spec session :
  invalidPayload session = true <->
  (exists u, resolveUserId session = Js.Num u /\ u <= 0) \/
  (exists t, resolveTokens session = Js.Num t /\ t <= 0).
Proof.
  unfold invalidPayload. rewrite orb_true_iff. unfold Js.le.
  split.
  - intros [Hu|Ht].
    + left. destruct (resolveUserId session) as [|u]; [discriminate|].
      exists u. split; [reflexivity|]. apply Z.leb_le, Hu.
    + right. destruct (resolveTokens session) as [|t]; [discriminate|].
      exists t. split; [reflexivity|]. apply Z.leb_le, Ht.
  - intros [(u & Hu & Hle)|(t & Ht & Hle)].
    + left. rewrite Hu. apply Z.leb_le, Hle.
    + right. rewrite Ht. apply Z.leb_le, Hle.
Qed.

(** A value that resolves to [NaN] does not trip the guard. *)
Lemma nan_passes_guard session t :
  resolveUserId session = Js.NaN ->
  resolveTokens session = Js.Num t -> 0 < t ->
  invalidPayload session = false.
Proof.
  intros Hu Ht Hpos. unfold invalidPayload. rewrite Hu, Ht. simpl.
  apply Z.leb_gt, Hpos.
Qed.

(** A verified checkout-completed event whose user identifier or token
    amount resolves to zero or to a negative integer is acknowledged with
    200 and the store is left as it was. *)
Lemma nonpositive_payload_acknowledged {Σ : Type} `{StripeLib} `{Storage Σ}
    env req (σ : Σ) event :
  accepts env req event ->
  event_type event = "checkout.session.completed"%string ->
  (exists u, resolveUserId (data_object event) = Js.Num u /\ u <= 0) \/
  (exists t, resolveTokens (data_object event) = Js.Num t /\ t <= 0) ->
  deliver env req σ = (Returned, {| store := σ; sent := [received] |}).
Proof.
  intros Hacc Htype Hbad.
  apply (deliver_invalid env req σ event Hacc Htype).
  apply invalidPayload_spec, Hbad.
Qed.

(** The two payloads the specification names: a user identifier of 0 and a
    token amount of -5. *)
Example userId_zero_acknowledged :
  deliver (H := Doubles.stripe (inr (Sample.checkout "cs_1" "0" "1000")))
          (H0 := SessionStore.storage) Sample.env Sample.req Sample.store
  = (Returned, {| store := Sample.store; sent := [received] |}).
Proof. vm_compute. reflexivity. Qed.

Example tokens_minus_five_acknowledged :
  deliver (H := Doubles.stripe (inr (Sample.checkout "cs_1" "42" "-5")))
          (H0 := SessionStore.storage) Sample.env Sample.req Sample.store
  = (Returned, {| store := Sample.store; sent := [received] |}).
Proof. vm_compute. reflexivity. Qed.

(** C2, at the input where the code departs from it: the metadata
    [user_id = "abc"] resolves to [NaN], which is not a strictly positive
    integer, yet the guard of line 41 does not fire.  The event is not
    acknowledged as invalid: the store operation is called with [NaN] as
    the user, and when the store cannot be reached the answer is 500. *)
Theorem nan_user_id_reaches_the_store :
  let event := Sample.checkout "cs_1" "abc" "100" in
  resolveUserId (data_object event) = Js.NaN /\
  invalidPayload (data_object event) = false /\
  deliver (H := Doubles.stripe (inr event)) (H0 := Doubles.recording)
          Sample.env Sample.req []
  = (Returned, {| store := [("cs_1"%string, Js.NaN, Js.Num 100)]; sent := [received] |}) /\
  deliver (H := Doubles.stripe (inr event))
          (H0 := Doubles.unreachable Sample.connectionRefused)
          Sample.env Sample.req 0%nat
  = (Returned, {| store := 1%nat; sent := [pleaseRetry] |}) /\
  status pleaseRetry = 500.
Proof. vm_compute. repeat split. Qed.

End Validation.

(** ** Crediting through the session store *)

Section Crediting.
Import Webhook SessionStore.

(** The store after session [sid] was completed and [amount] credited to
    [uid], whose balance was [b]. *)
Lemma completeAndCredit_first sid uid amount (σ : Store) s b :
  sessions σ !! sid = Some s ->
  balances σ !! uid = Some b ->
  isCompleted (status s) = false ->
  completeAndCredit sid uid amount σ =
    (inr {| alreadyCompleted := false; newBalance := b + amount |},
     {| sessions :=
          <[sid := {| userId := userId s; tokenAmount := tokenAmount s;
                      status := completed; completedAt := Some (now σ) |}]> (sessions σ);
        balances := <[uid := b + amount]> (balances σ);
        now := now σ |}).
Proof.
  intros Hs Hb Hst. unfold completeAndCredit. rewrite Hs, Hb.
  destruct (status s); [reflexivity|discriminate|reflexivity].
Qed.

Lemma completeAndCredit_again sid uid amount (σ : Store) s b :
  sessions σ !! sid = Some s ->
  balances σ !! uid = Some b ->
  isCompleted (status s) = true ->
  completeAndCredit sid uid amount σ =
    (inr {| alreadyCompleted := true; newBalance := b |}, σ).
Proof.
  intros Hs Hb Hst. unfold completeAndCredit. rewrite Hs, Hb.
  destruct (status s); [discriminate|reflexivity|discriminate].
Qed.

(** Once the session is completed, any number of further invocations
    report [alreadyCompleted] and change nothing. *)
Lemma invoke_completed n sid uid amount (σ : Store) s b :
  sessions σ !! sid = Some s ->
  balances σ !! uid = Some b ->
  isCompleted (status s) = true ->
  invoke n sid uid amount σ =
    (replicate n (inr {| alreadyCompleted := true; newBalance := b |}), σ).
Proof.
  intros Hs Hb Hst. induction n as [|n IH]; [reflexivity|].
  simpl. rewrite (completeAndCredit_again sid uid amount σ s b Hs Hb Hst), IH.
  reflexivity.
Qed.

(** What one invocation leaves behind: the session is completed and the
    balance is the one reported. *)
Lemma completeAndCredit_leaves sid uid amount (σ : Store) s b :
  sessions σ !! sid = Some s ->
  balances σ !! uid = Some b ->
  exists r s',
    completeAndCredit sid uid amount σ = (inr r, snd (completeAndCredit sid uid amount σ)) /\
    alreadyCompleted r = isCompleted (status s) /\
    newBalance r = (if isCompleted (status s) then b else b + amount) /\
    sessions (snd (completeAndCredit sid uid amount σ)) !! sid = Some s' /\
    isCompleted (status s') = true /\
    balances (snd (completeAndCredit sid uid amount σ)) !! uid = Some (newBalance r).
Proof.
  intros Hs Hb. destruct (isCompleted (status s)) eqn:Hst.
  - rewrite (completeAndCredit_again sid uid amount σ s b Hs Hb Hst).
    eexists _, s. simpl. repeat split; assumption.
  - rewrite (completeAndCredit_first sid uid amount σ s b Hs Hb Hst).
    eexists _, _. simpl. repeat split.
    + apply lookup_insert_eq.
    + reflexivity.
    + apply lookup_insert_eq.
Qed.

End Crediting.

Section CreditingThroughTheHandler.
Context `{Webhook.StripeLib}.
Import Webhook SessionStore.

(** A verified checkout-completed event that resolves to the positive
    integers [uid] and [amount], for a session and a user the store
    knows: the handler answers 200 and leaves the store that one
    invocation of the store operation leaves. *)
Lemma deliver_credits env req (σ : Store) event uid amount s b :
  accepts env req event ->
  event_type event = "checkout.session.completed"%string ->
  resolveUserId (data_object event) = Js.Num uid ->
  resolveTokens (data_object event) = Js.Num amount ->
  0 < uid -> 0 < amount ->
  sessions σ !! session_id (data_object event) = Some s ->
  balances σ !! uid = Some b ->
  deliver env req σ =
    (Returned,
     {| store := snd (completeAndCredit (session_id (data_object event)) uid amount σ);
        sent := [received] |}).
Proof.
  intros Hacc Htype Hu Ht Hupos Htpos Hs Hb.
  assert (Hvalid : invalidPayload (data_object event) = false).
  { unfold invalidPayload. rewrite Hu, Ht. simpl.
    apply orb_false_iff. split; apply Z.leb_gt; assumption. }
  rewrite (deliver_reconciles env req σ event Hacc Htype Hvalid).
  rewrite Hu, Ht. simpl.
  destruct (completeAndCredit_leaves _ uid amount σ s b Hs Hb) as (r & s' & Hr & _).
  rewrite Hr. reflexivity.
Qed.

Lemma redeliver_completed n env req (σ : Store) event uid amount s b :
  accepts env req event ->
  event_type event = "checkout.session.completed"%string ->
  resolveUserId (data_object event) = Js.Num uid ->
  resolveTokens (data_object event) = Js.Num amount ->
  0 < uid -> 0 < amount ->
  sessions σ !! session_id (data_object event) = Some s ->
  balances σ !! uid = Some b ->
  isCompleted (status s) = true ->
  redeliver n env req σ = (replicate n [received], σ).
Proof.
  intros Hacc Htype Hu Ht Hupos Htpos Hs Hb Hst.
  induction n as [|n IH]; [reflexivity|].
  simpl.
  rewrite (deliver_credits env req σ event uid amount s b) by assumption.
  rewrite (completeAndCredit_again _ uid amount σ s b Hs Hb Hst). simpl.
  rewrite IH. reflexivity.
Qed.

(** C1: for a session and a user the store knows, [n + 1] invocations of
    the complete-and-credit operation with the same arguments leave the
    store that the first one leaves: the balance is incremented once (by
    [amount], when the session was not completed before) and every
    invocation after the first reports [alreadyCompleted = true].  The
    same holds through the handler: a verified event for the session
    delivered [n + 1] times is answered 200 each time, and the store is
    the one left by a single invocation. *)
Theorem crediting_is_idempotent n (σ : Store) sid uid amount s b :
  sessions σ !! sid = Some s ->
  balances σ !! uid = Some b ->
  let first := isCompleted (status s) in
  let b' := if first then b else b + amount in
  let σ' := snd (completeAndCredit sid uid amount σ) in
  invoke (S n) sid uid amount σ =
    (inr {| alreadyCompleted := first; newBalance := b' |}
       :: replicate n (inr {| alreadyCompleted := true; newBalance := b' |}),
     σ') /\
  balances σ' = (if first then balances σ else <[uid := b + amount]> (balances σ)) /\
  (forall env req event,
     accepts env req event ->
     event_type event = "checkout.session.completed"%string ->
     session_id (data_object event) = sid ->
     resolveUserId (data_object event) = Js.Num uid ->
     resolveTokens (data_object event) = Js.Num amount ->
     0 < uid -> 0 < amount ->
     redeliver (S n) env req σ = (replicate (S n) [received], σ') /\
     Webhook.status received = 200).
Proof.
  intros Hs Hb first b' σ'.
  destruct (completeAndCredit_leaves sid uid amount σ s b Hs Hb)
    as (r & s' & Hr & Hal & Hnb & Hs' & Hst' & Hb').
  fold σ' in Hr, Hs', Hb'. fold first in Hal, Hnb. fold b' in Hnb.
  assert (Er : r = {| alreadyCompleted := first; newBalance := b' |}).
  { destruct r as [a nb]. simpl in Hal, Hnb. congruence. }
  subst r. simpl in Hb'.
  split; [|split].
  - simpl. fold σ'. rewrite Hr.
    rewrite (invoke_completed n sid uid amount σ' s' b' Hs' Hb' Hst').
    reflexivity.
  - subst σ' first. destruct (isCompleted (status s)) eqn:Hst.
    + rewrite (completeAndCredit_again sid uid amount σ s b Hs Hb Hst). reflexivity.
    + rewrite (completeAndCredit_first sid uid amount σ s b Hs Hb Hst). reflexivity.
  - intros env req event Hacc Htype Hsid Hu Ht Hupos Htpos.
    split; [|reflexivity]. simpl. subst sid.
    rewrite (deliver_credits env req σ event uid amount s b) by assumption.
    simpl. fold σ'.
    rewrite (redeliver_completed n env req σ' event uid amount s' b') by assumption.
    reflexivity.
Qed.

(** C4, as amended: on a successful reconciliation the amount credited to
    the user's balance is the amount the event's metadata resolves to,
    whatever amount the session was created with. *)
Theorem credited_amount_is_the_events env req (σ : Store) event uid amount s b :
  accepts env req event ->
  event_type event = "checkout.session.completed"%string ->
  resolveUserId (data_object event) = Js.Num uid ->
  resolveTokens (data_object event) = Js.Num amount ->
  0 < uid -> 0 < amount ->
  sessions σ !! session_id (data_object event) = Some s ->
  isCompleted (status s) = false ->
  balances σ !! uid = Some b ->
  exists σ',
    deliver env req σ = (Returned, {| store := σ'; sent := [received] |}) /\
    balances σ' !! uid = Some (b + amount).
Proof.
  intros Hacc Htype Hu Ht Hupos Htpos Hs Hst Hb.
  eexists. split.
  - apply (deliver_credits env req σ event uid amount s b); assumption.
  - rewrite (completeAndCredit_first _ uid amount σ s b Hs Hb Hst). simpl.
    apply lookup_insert_eq.
Qed.

End CreditingThroughTheHandler.

(** ** The payment button and its poller *)

Section Poller.
Import StripeButton.
Variable props : Props.

Lemma lookups_app (l1 l2 : list Effect) :
  length (filter (fun e => isLookup e = true) (l1 ++ l2)) =
  (length (filter (fun e => isLookup e = true) l1) +
   length (filter (fun e => isLookup e = true) l2))%nat.
Proof. rewrite filter_app, length_app. reflexivity. Qed.

(** One poll that finds the session neither completed nor failed, or that
    fails to look it up: the chain is rescheduled 2000 ms later and one
    lookup was made. *)
Lemma poll_again pend proc d sid lg o :
  keepsPolling o = true ->
  run props (polls [o])
    {| isPending := pend; isProcessing := proc;
       timers := [{| delay := d; sessionId := sid |}]; awaiting := []; log := lg |}
  = {| isPending := pend; isProcessing := proc;
       timers := [{| delay := 2000; sessionId := sid |}]; awaiting := [];
       log := (lg ++ [StatusLookup sid]) ++
              match o with
              | LookupThrows => [ConsoleError "Error checking payment status:"]
              | LookupStatus _ => []
              end |}.
Proof.
  intros Hk. destruct o as [|st]; simpl.
  - reflexivity.
  - unfold pollPaymentStatus. simpl in Hk.
    apply negb_true_iff, orb_false_iff in Hk. destruct Hk as [Hc Hf].
    rewrite Hc, Hf. unfold setTimeout. simpl. rewrite app_nil_r. reflexivity.
Qed.

Lemma polls_app (os1 os2 : list LookupOutcome) :
  polls (os1 ++ os2) = polls os1 ++ polls os2.
Proof. unfold polls. apply flat_map_app. Qed.

Lemma run_app (es1 es2 : list Event) (ui : UI) :
  run props (es1 ++ es2) ui = run props es2 (run props es1 ui).
Proof.
  revert ui. induction es1 as [|e es1 IH]; intros ui; [reflexivity|].
  simpl. apply IH.
Qed.

(** While the outcomes keep it polling, the chain stays alone, the flags
    stay as they are, and every outcome costs one lookup. *)
Lemma polling_goes_on (os : list LookupOutcome) (ui : UI) sid :
  alone sid ui ->
  Forall (fun o => keepsPolling o = true) os ->
  alone sid (run props (polls os) ui) /\
  isPending (run props (polls os) ui) = isPending ui /\
  isProcessing (run props (polls os) ui) = isProcessing ui /\
  lookups (run props (polls os) ui) = (lookups ui + length os)%nat /\
  (os <> [] -> timers (run props (polls os) ui) = [{| delay := 2000; sessionId := sid |}]).
Proof.
  intros Hal Hos. revert ui Hal.
  induction Hos as [|o os Ho Hos IH]; intros ui Hal.
  - simpl. repeat split; try assumption; try lia. congruence.
  - change (polls (o :: os)) with (polls [o] ++ polls os).
    rewrite run_app.
    destruct ui as [pend proc tm aw lg]. destruct Hal as (d & Htm & Haw).
    simpl in Htm, Haw. subst tm aw.
    rewrite (poll_again pend proc d sid lg o Ho).
    match goal with |- context [run props (polls os) ?u] => set (ui1 := u) end.
    assert (Hal1 : alone sid ui1) by (exists 2000; split; reflexivity).
    destruct (IH ui1 Hal1) as (Hal2 & Hp & Hq & Hl & Ht).
    split; [exact Hal2|]. split; [exact Hp|]. split; [exact Hq|]. split.
    + rewrite Hl. unfold lookups, ui1. simpl log.
      rewrite !lookups_app. simpl. destruct o; simpl; lia.
    + intros _. destruct os as [|o' os'].
      * reflexivity.
      * apply Ht. discriminate.
Qed.

(** The poll that finds the session completed, with an [onSuccess] that
    returns: nothing is rescheduled and [isProcessing] is reset. *)
Lemma poll_completed pend proc d sid lg :
  onSuccess props <> Some Throws ->
  let ui := run props (polls [LookupStatus "completed"])
              {| isPending := pend; isProcessing := proc;
                 timers := [{| delay := d; sessionId := sid |}]; awaiting := [];
                 log := lg |} in
  timers ui = [] /\ awaiting ui = [] /\ isProcessing ui = false /\
  isPending ui = pend /\
  lookups ui = S (length (filter (fun e => isLookup e = true) lg)).
Proof.
  intros Hcb. simpl. unfold pollPaymentStatus. simpl.
  unfold lookups.
  destruct (onSuccess props) as [[|]|]; simpl; try congruence;
    repeat split; rewrite ?lookups_app; simpl; lia.
Qed.

(** The poll that finds the session failed, with an [onError] that
    returns. *)
Lemma poll_failed pend proc d sid lg :
  onError props <> Some Throws ->
  let ui := run props (polls [LookupStatus "failed"])
              {| isPending := pend; isProcessing := proc;
                 timers := [{| delay := d; sessionId := sid |}]; awaiting := [];
                 log := lg |} in
  timers ui = [] /\ awaiting ui = [] /\ isProcessing ui = false /\
  isPending ui = pend /\
  lookups ui = S (length (filter (fun e => isLookup e = true) lg)).
Proof.
  intros Hcb. simpl. unfold pollPaymentStatus. simpl.
  unfold lookups.
  destruct (onError props) as [[|]|]; simpl; try congruence;
    repeat split; rewrite ?lookups_app; simpl; lia.
Qed.

(** With no timer, no lookup in flight and no mutation pending, only a
    click makes the component do anything. *)
Lemma quiet_stays_quiet (es : list Event) (ui : UI) :
  timers ui = [] -> awaiting ui = [] -> isPending ui = false ->
  Click ∉ es ->
  run props es ui = ui.
Proof.
  intros Ht Ha Hp. induction es as [|e es IH]; intros Hno; [reflexivity|].
  assert (He : e <> Click) by (intros ->; apply Hno; left).
  assert (Hrest : Click ∉ es) by (intros Hin; apply Hno; right; exact Hin).
  simpl. replace (step props e ui) with ui; [apply IH, Hrest|].
  destruct e as [|data opens| |i|i o]; simpl.
  - congruence.
  - rewrite Hp. reflexivity.
  - rewrite Hp. reflexivity.
  - rewrite Ht. reflexivity.
  - rewrite Ha. reflexivity.
Qed.

(** The poller when the callbacks return: a session found completed at
    poll [k + 1], after [k] polls that found it pending (or in any other
    non-terminal state) or failed to look it up, costs exactly [k + 1]
    lookups; then no timer is left, and whatever happens later short of a
    new click, no further lookup is made. *)
Lemma poller_stops_when_callbacks_return sid (pre : list LookupOutcome) (later : list Event) :
  callbacksReturn props ->
  Forall (fun o => keepsPolling o = true) pre ->
  Click ∉ later ->
  let ui := run props (polls (pre ++ [LookupStatus "completed"]) ++ later)
              (started props sid) in
  lookups ui = S (length pre) /\ timers ui = [] /\ awaiting ui = [] /\
  isProcessing ui = false.
Proof.
  intros [Hsucc _] Hpre Hlater.
  rewrite polls_app, !run_app.
  assert (Hal : alone sid (started props sid)) by (exists 3000; split; reflexivity).
  destruct (polling_goes_on pre (started props sid) sid Hal Hpre)
    as ((d & Htm & Haw) & Hp & Hq & Hl & _).
  destruct (run props (polls pre) (started props sid)) as [pend proc tm aw lg] eqn:E.
  simpl in Htm, Haw, Hp, Hq, Hl. subst tm aw.
  destruct (poll_completed pend proc d sid lg Hsucc) as (Ht & Ha & Hproc & Hpend & Hlk).
  cbv zeta.
  assert (Hquiet : isPending
            (run props (polls [LookupStatus "completed"])
               {| isPending := pend; isProcessing := proc;
                  timers := [{| delay := d; sessionId := sid |}]; awaiting := [];
                  log := lg |}) = false).
  { rewrite Hpend, Hp. reflexivity. }
  rewrite (quiet_stays_quiet later _ Ht Ha Hquiet Hlater).
  repeat split; try assumption. rewrite Hlk. unfold lookups in Hl. simpl in Hl.
  rewrite Hl. reflexivity.
Qed.

End Poller.

Section Button.
Import StripeButton.
Variable props : Props.

Lemma pollPaymentStatus_isPending sid o (ui : UI) :
  isPending (pollPaymentStatus props sid o ui) = isPending ui.
Proof.
  unfold pollPaymentStatus. destruct o as [|st]; [reflexivity|].
  destruct (String.eqb st "completed").
  - destruct (onSuccess props) as [[|]|]; reflexivity.
  - destruct (String.eqb st "failed"); [|reflexivity].
    destruct (onError props) as [[|]|]; reflexivity.
Qed.

(** [pollPaymentStatus] resets [isProcessing] on [completed] and on
    [failed], and leaves it alone otherwise. *)
Lemma pollPaymentStatus_isProcessing sid o (ui : UI) :
  isProcessing (pollPaymentStatus props sid o ui) =
    (if keepsPolling o then isProcessing ui else false).
Proof.
  unfold pollPaymentStatus, keepsPolling. destruct o as [|st]; [reflexivity|].
  destruct (String.eqb st "completed"); simpl.
  - destruct (onSuccess props) as [[|]|]; reflexivity.
  - destruct (String.eqb st "failed"); simpl; [|reflexivity].
    destruct (onError props) as [[|]|]; reflexivity.
Qed.

(** [pollPaymentStatus] schedules at most one timer and starts no
    lookup. *)
Lemma pollPaymentStatus_chains sid o (ui : UI) :
  (chains ui <= chains (pollPaymentStatus props sid o ui) <= S (chains ui))%nat /\
  (keepsPolling o = true -> chains (pollPaymentStatus props sid o ui) = S (chains ui)) /\
  (callbacksReturn props -> keepsPolling o = false ->
   chains (pollPaymentStatus props sid o ui) = chains ui).
Proof.
  unfold pollPaymentStatus, keepsPolling, callbacksReturn, chains.
  destruct o as [|st]; simpl.
  - rewrite length_app. simpl. intuition (try lia; try congruence).
  - destruct (String.eqb st "completed"); simpl.
    + destruct (onSuccess props) as [[|]|]; simpl; rewrite ?length_app; simpl;
        intuition (try lia; try congruence).
    + destruct (String.eqb st "failed"); simpl.
      * destruct (onError props) as [[|]|]; simpl; rewrite ?length_app; simpl;
          intuition (try lia; try congruence).
      * rewrite length_app. simpl. intuition (try lia; try congruence).
Qed.

Lemma pollPaymentStatus_attempts sid o (ui : UI) :
  attempts (pollPaymentStatus props sid o ui) = attempts ui.
Proof.
  unfold pollPaymentStatus, attempts. destruct o as [|st]; simpl.
  - rewrite filter_app, length_app. simpl. lia.
  - destruct (String.eqb st "completed"); simpl.
    + destruct (onSuccess props) as [[|]|]; simpl;
        rewrite ?filter_app, ?length_app; simpl; lia.
    + destruct (String.eqb st "failed"); simpl; [|reflexivity].
      destruct (onError props) as [[|]|]; simpl;
        rewrite ?filter_app, ?length_app; simpl; lia.
Qed.

Lemma length_delete_lookup {A} (l : list A) i x :
  l !! i = Some x -> S (length (delete i l)) = length l.
Proof.
  revert i. induction l as [|a l IH]; intros [|i] Hl; try discriminate.
  - reflexivity.
  - simpl. f_equal. apply (IH i Hl).
Qed.

(** The creation is never pending while [isProcessing] is set. *)
Lemma step_exclusive e (ui : UI) :
  (isPending ui = true -> isProcessing ui = false) ->
  isPending (step props e ui) = true -> isProcessing (step props e ui) = false.
Proof.
  intros Hx. destruct e as [|data opens| |i|i o]; simpl.
  - unfold disabled.
    destruct (isPending ui) eqn:Hp, (isProcessing ui) eqn:Hq; simpl;
      rewrite ?Hp, ?Hq; intros; auto; congruence.
  - destruct (isPending ui) eqn:Hp; simpl; rewrite ?Hp; intros; congruence.
  - destruct (isPending ui) eqn:Hp; simpl; rewrite ?Hp; intros; congruence.
  - destruct (timers ui !! i); simpl; exact Hx.
  - destruct (awaiting ui !! i); [|exact Hx].
    rewrite pollPaymentStatus_isPending, pollPaymentStatus_isProcessing. simpl.
    intros Hp. destruct (keepsPolling o); auto.
Qed.

Lemma run_exclusive (es : list Event) (ui : UI) :
  (isPending ui = true -> isProcessing ui = false) ->
  isPending (run props es ui) = true -> isProcessing (run props es ui) = false.
Proof.
  revert ui. induction es as [|e es IH]; intros ui Hx; [exact Hx|].
  simpl. apply IH. apply step_exclusive, Hx.
Qed.









End Button.

Section ThrowingCallback.
Import StripeButton.

(** With an [onSuccess] that throws, the poll that finds the session
    completed resets [isProcessing] and schedules the next poll. *)
Lemma poll_completed_throwing props pend proc d sid lg :
  onSuccess props = Some Throws ->
  run props (polls [LookupStatus "completed"])
    {| isPending := pend; isProcessing := proc;
       timers := [{| delay := d; sessionId := sid |}]; awaiting := []; log := lg |}
  = {| isPending := pend; isProcessing := false;
       timers := [{| delay := 2000; sessionId := sid |}]; awaiting := [];
       log := lg ++ [StatusLookup sid; Toast "Payment successful!"; InvalidateQueries;
                     CallOnSuccess; ConsoleError "Error checking payment status:"] |}.
Proof.
  intros Hcb. simpl. unfold pollPaymentStatus. simpl. rewrite Hcb. simpl.
  unfold setTimeout, perform. simpl. rewrite <- !app_assoc. reflexivity.
Qed.

Lemma repolls_forever props sid (n : nat) (ui : UI) :
  onSuccess props = Some Throws ->
  alone sid ui ->
  let ui' := run props (polls (replicate (S n) (LookupStatus "completed"))) ui in
  isProcessing ui' = false /\
  timers ui' = [{| delay := 2000; sessionId := sid |}] /\
  awaiting ui' = [] /\
  lookups ui' = (lookups ui + S n)%nat.
Proof.
  intros Hcb. revert ui. induction n as [|n IH]; intros ui (d & Ht & Ha).
  - destruct ui as [pend proc tm aw lg]. simpl in Ht, Ha. subst tm aw.
    cbv zeta. change (replicate 1 (LookupStatus "completed")) with [LookupStatus "completed"].
    rewrite (poll_completed_throwing props pend proc d sid lg Hcb).
    unfold lookups. simpl. rewrite lookups_app. simpl.
    split; [reflexivity|]. split; [reflexivity|]. split; [reflexivity|]. lia.
  - cbv zeta.
    change (replicate (S (S n)) (LookupStatus "completed"))
      with ([LookupStatus "completed"] ++ replicate (S n) (LookupStatus "completed")).
    rewrite polls_app, run_app.
    destruct ui as [pend proc tm aw lg]. simpl in Ht, Ha. subst tm aw.
    rewrite (poll_completed_throwing props pend proc d sid lg Hcb).
    match goal with |- context [run props _ ?u] => set (ui1 := u) end.
    assert (Hal : alone sid ui1) by (exists 2000; split; reflexivity).
    destruct (IH ui1 Hal) as (Hp & Htm & Haw & Hl).
    split; [exact Hp|]. split; [exact Htm|]. split; [exact Haw|].
    rewrite Hl. unfold lookups, ui1. simpl. rewrite lookups_app. simpl. lia.
Qed.

End ThrowingCallback.

(** C8, at the input where the code departs from it: [onSuccess] throws
    and every lookup finds the session completed (k = 0).  The exception
    lands in the [catch] of [pollPaymentStatus], which schedules the next
    poll 2000 ms later although [isProcessing] was reset: after [n + 1]
    such lookups a timer is still pending, so the poller makes [n + 1]
    lookups for every [n], not one. *)
Theorem poller_repolls_after_throwing_callback (n : nat) :
  let props := StripeButton.throwingProps in
  let completed := StripeButton.LookupStatus "completed" in
  let ui := StripeButton.run props (StripeButton.polls (replicate (S n) completed))
              (StripeButton.started props "cs_1") in
  StripeButton.isProcessing ui = false /\
  StripeButton.timers ui =
    [{| StripeButton.delay := 2000; StripeButton.sessionId := "cs_1" |}] /\
  StripeButton.lookups ui = S n.
Proof.
  cbv zeta.
  assert (Hal : StripeButton.alone "cs_1"
                  (StripeButton.started StripeButton.throwingProps "cs_1"))
    by (exists 3000; split; reflexivity).
  destruct (repolls_forever StripeButton.throwingProps "cs_1" n _ eq_refl Hal)
    as (Hp & Ht & _ & Hl).
  split; [exact Hp|]. split; [exact Ht|]. rewrite Hl. reflexivity.
Qed.

(** ** The handler on concrete deliveries *)

Section Deliveries.
Import Webhook.

(** The stand-in package accepts every request of a configured
    environment with its fixed event. *)
Lemma stand_in_accepts event :
  accepts (H := Doubles.stripe (inr event)) Sample.env Sample.req event.
Proof. exists "whsec_test"%string. repeat split. Qed.

(** A package whose client constructor rejects a missing API key: the
    request is answered 400 as well, whatever its signature, since the
    constructor runs inside the verification block. *)
Remark missing_api_key_answers_400 event :
  deliver (H := Doubles.strictStripe (inr event)) (H0 := Doubles.recording)
          {| STRIPE_WEBHOOK_SECRET := Some "whsec_test"; STRIPE_SECRET_KEY := None |}
          Sample.req []
  = (Returned, {| store := []; sent := [badSignature] |}).
Proof. reflexivity. Qed.

(** Counterexample to C5 as stated: with no secret configured the request
    is answered 500, which is not a client-error status. *)
Lemma unconfigured_secret_is_not_a_client_error :
  deliver (H := Doubles.stripe (inl Sample.badSignatureError))
          (H0 := SessionStore.storage)
          Sample.unconfigured Sample.req Sample.store
  = (Returned, {| store := Sample.store; sent := [notConfigured] |}) /\
  ~ (400 <= status notConfigured < 500).
Proof.
  split.
  - apply deliver_unconfigured. reflexivity.
  - simpl. lia.
Qed.

(** Counterexample to C3 as stated: the message of the error contains
    none of the markers, and yet the answer is 500, because the code of
    the error is "ENETUNREACH". *)
Lemma enetunreach_code_answers_500 :
  Js.message Sample.networkUnreachable = Some "network is down"%string /\
  Js.includes "network is down" "connection" = false /\
  Js.includes "network is down" "timeout" = false /\
  Js.includes "network is down" "ECONNREFUSED" = false /\
  deliver (H := Doubles.stripe (inr (Sample.checkout "cs_1" "42" "1000")))
          (H0 := Doubles.unreachable Sample.networkUnreachable)
          Sample.env Sample.req 0%nat
  = (Returned, {| store := 1%nat; sent := [pleaseRetry] |}) /\
  status pleaseRetry <> 200.
Proof. vm_compute. repeat split. discriminate. Qed.

(** Counterexample to C4 as stated: session [cs_1] was created for 1000
    tokens, the event claims 5000, and 5000 are credited. *)
Lemma event_amount_overrides_session_amount :
  let σ' :=
    store (snd (deliver (H := Doubles.stripe (inr (Sample.checkout "cs_1" "42" "5000")))
                        (H0 := SessionStore.storage)
                        Sample.env Sample.req Sample.store)) in
  SessionStore.tokenAmount <$> (SessionStore.sessions Sample.store !! "cs_1") = Some 1000 /\
  SessionStore.balances Sample.store !! 42 = Some 10 /\
  SessionStore.balances σ' !! 42 = Some 5010 /\
  5010 <> 10 + 1000.
Proof. vm_compute. repeat split. discriminate. Qed.

(** *** The theorems at concrete inputs *)

Lemma unconfigured_secret_answers_500_witness :
  Js.truthy (STRIPE_WEBHOOK_SECRET Sample.unconfigured) = false /\
  deliver (H := Doubles.stripe (inr Sample.refund)) (H0 := SessionStore.storage)
          Sample.unconfigured Sample.req Sample.store
  = (Returned, {| store := Sample.store; sent := [notConfigured] |}) /\
  status notConfigured = 500.
Proof.
  split; [reflexivity|].
  apply (unconfigured_secret_answers_500 (H := Doubles.stripe (inr Sample.refund))
           (H0 := SessionStore.storage) Sample.unconfigured Sample.req Sample.store).
  reflexivity.
Defined.


Lemma other_event_types_ignored_witness :
  event_type Sample.refund <> "checkout.session.completed"%string /\
  deliver (H := Doubles.stripe (inr Sample.refund)) (H0 := Doubles.recording)
          Sample.env Sample.req []
  = (Returned, {| store := []; sent := [sendStatus200] |}) /\
  status sendStatus200 = 200.
Proof.
  assert (Hty : event_type Sample.refund <> "checkout.session.completed"%string)
    by discriminate.
  split; [exact Hty|].
  apply (other_event_types_ignored (H := Doubles.stripe (inr Sample.refund))
           (H0 := Doubles.recording) Sample.env Sample.req [] Sample.refund
           (stand_in_accepts Sample.refund) Hty).
Defined.

Lemma reconciliation_failure_response_witness :
  Js.includes "connect ECONNREFUSED 127.0.0.1:5432" "ECONNREFUSED" = true /\
  deliver (H := Doubles.stripe (inr (Sample.checkout "cs_1" "42" "1000")))
          (H0 := Doubles.unreachable Sample.connectionRefused)
          Sample.env Sample.req 0%nat
  = (Returned, {| store := 1%nat; sent := [pleaseRetry] |}) /\
  deliver (H := Doubles.stripe (inr (Sample.checkout "cs_1" "42" "1000")))
          (H0 := Doubles.unreachable Sample.constraintViolation)
          Sample.env Sample.req 0%nat
  = (Returned, {| store := 1%nat; sent := [received] |}).
Proof.
  split; [reflexivity|]. split.
  - destruct (reconciliation_failure_response
                (H := Doubles.stripe (inr (Sample.checkout "cs_1" "42" "1000")))
                (H0 := Doubles.unreachable Sample.connectionRefused)
                Sample.env Sample.req 0%nat 1%nat
                (Sample.checkout "cs_1" "42" "1000") Sample.connectionRefused
                (stand_in_accepts _) eq_refl eq_refl eq_refl) as (Hretry & _).
    apply Hretry. left.
    exists "connect ECONNREFUSED 127.0.0.1:5432"%string.
    split; [reflexivity|]. right. right. reflexivity.
  - destruct (reconciliation_failure_response
                (H := Doubles.stripe (inr (Sample.checkout "cs_1" "42" "1000")))
                (H0 := Doubles.unreachable Sample.constraintViolation)
                Sample.env Sample.req 0%nat 1%nat
                (Sample.checkout "cs_1" "42" "1000") Sample.constraintViolation
                (stand_in_accepts _) eq_refl eq_refl eq_refl) as (_ & Hack & _).
    apply Hack. intros [(m & Hm & Hinc)|Hc].
    + injection Hm as <-. vm_compute in Hinc.
      destruct Hinc as [Hi|[Hi|Hi]]; discriminate.
    + discriminate.
Defined.

Lemma credited_amount_is_the_events_witness :
  exists σ',
    deliver (H := Doubles.stripe (inr (Sample.checkout "cs_1" "42" "5000")))
            (H0 := SessionStore.storage) Sample.env Sample.req Sample.store
    = (Returned, {| store := σ'; sent := [received] |}) /\
    SessionStore.balances σ' !! 42 = Some (10 + 5000).
Proof.
  assert (Hs : SessionStore.sessions Sample.store !! "cs_1" =
               Some {| SessionStore.userId := 42; SessionStore.tokenAmount := 1000;
                       SessionStore.status := SessionStore.pending;
                       SessionStore.completedAt := None |}) by reflexivity.
  assert (Hb : SessionStore.balances Sample.store !! 42 = Some 10) by reflexivity.
  apply (credited_amount_is_the_events
           (H := Doubles.stripe (inr (Sample.checkout "cs_1" "42" "5000")))
           Sample.env Sample.req Sample.store (Sample.checkout "cs_1" "42" "5000")
           42 5000 _ 10 (stand_in_accepts _) eq_refl eq_refl eq_refl
           eq_refl eq_refl Hs eq_refl Hb).
Defined.

Lemma crediting_is_idempotent_witness :
  fst (SessionStore.invoke 3 "cs_1" 42 1000 Sample.store) =
    [inr {| alreadyCompleted := false; newBalance := 1010 |};
     inr {| alreadyCompleted := true; newBalance := 1010 |};
     inr {| alreadyCompleted := true; newBalance := 1010 |}] /\
  SessionStore.balances (snd (SessionStore.invoke 3 "cs_1" 42 1000 Sample.store))
    = <[42 := 1010]> (SessionStore.balances Sample.store) /\
  redeliver (H := Doubles.stripe (inr (Sample.checkout "cs_1" "42" "1000")))
            (H0 := SessionStore.storage) 3 Sample.env Sample.req Sample.store
  = ([[received]; [received]; [received]],
     snd (SessionStore.completeAndCredit "cs_1" 42 1000 Sample.store)).
Proof.
  assert (Hs : SessionStore.sessions Sample.store !! "cs_1" =
               Some {| SessionStore.userId := 42; SessionStore.tokenAmount := 1000;
                       SessionStore.status := SessionStore.pending;
                       SessionStore.completedAt := None |}) by reflexivity.
  assert (Hb : SessionStore.balances Sample.store !! 42 = Some 10) by reflexivity.
  destruct (crediting_is_idempotent
              (H := Doubles.stripe (inr (Sample.checkout "cs_1" "42" "1000")))
              2 Sample.store "cs_1" 42 1000 _ 10 Hs Hb) as (Hinv & Hbal & Hdel).
  split; [|split].
  - rewrite Hinv. reflexivity.
  - rewrite Hinv. exact Hbal.
  - apply (Hdel Sample.env Sample.req (Sample.checkout "cs_1" "42" "1000")
             (stand_in_accepts _) eq_refl eq_refl eq_refl eq_refl eq_refl eq_refl).
Defined.

End Deliveries.

Section ButtonRuns.
Import StripeButton.


End ButtonRuns.

(** * Further properties *)

(** ** Decimal text and [parseInt] *)

Section DecimalRoundTrip.













End DecimalRoundTrip.

(** ** The handler and the metadata of the event *)

Section Metadata.
Context {Σ : Type} `{Webhook.StripeLib} `{Webhook.Storage Σ}.
Import Webhook.


Lemma resolveUserId_from_metadata session md s :
  metadata session = Some md -> md !! "user_id" = Some s ->
  String.eqb s "" = false ->
  resolveUserId session = Js.parseInt s.
Proof.
  intros Hmd Hs Hne. unfold resolveUserId, Js.or, Js.truthy. rewrite Hmd. simpl.
  rewrite Hs, Hne. simpl. rewrite Hne. reflexivity.
Qed.






(** X4: a non-empty [metadata.user_id] wins: what [client_reference_id] holds
    then makes no difference to what the handler does. *)
Theorem user_id_takes_precedence sid md s (c1 c2 : option string) ty id (w : World Σ) :
  md !! "user_id" = Some s ->
  String.eqb s "" = false ->
  reconcile {| event_id := id; event_type := ty;
               data_object := {| session_id := sid; metadata := Some md;
                                 client_reference_id := c1 |} |} w
  = reconcile {| event_id := id; event_type := ty;
                 data_object := {| session_id := sid; metadata := Some md;
                                   client_reference_id := c2 |} |} w.
Proof.
  intros Hs Hne. unfold reconcile. simpl.
  rewrite (resolveUserId_from_metadata
             {| session_id := sid; metadata := Some md; client_reference_id := c1 |}
             md s eq_refl Hs Hne).
  rewrite (resolveUserId_from_metadata
             {| session_id := sid; metadata := Some md; client_reference_id := c2 |}
             md s eq_refl Hs Hne).
  reflexivity.
Qed.

(** X5: an event that names no user (neither a non-empty [metadata.user_id]
    nor a non-empty [client_reference_id]) or no token amount is
    acknowledged with 200, and the store is not called. *)
Theorem missing_user_or_tokens_acknowledged env req (σ : Σ) event :
  accepts env req event ->
  event_type event = "checkout.session.completed"%string ->
  (Js.truthy (metadata (data_object event) ≫= (.!! "user_id")) = false /\
   Js.truthy (client_reference_id (data_object event)) = false) \/
  Js.truthy (metadata (data_object event) ≫= (.!! "tokens")) = false ->
  deliver env req σ = (Returned, {| store := σ; sent := [received] |}).
Proof.
  intros Hacc Htype Hmissing.
  apply (deliver_invalid env req σ event Hacc Htype).
  unfold invalidPayload. apply orb_true_iff.
  destruct Hmissing as [[Hu Hc]|Ht].
  - left. unfold resolveUserId, Js.or. rewrite Hu.
    unfold Js.truthy in Hc. unfold Js.or_lit.
    destruct (client_reference_id (data_object event)) as [c|]; [|reflexivity].
    destruct (String.eqb c ""); [reflexivity|discriminate].
  - right. unfold resolveTokens, Js.or_lit. unfold Js.truthy in Ht.
    destruct (metadata (data_object event) ≫= (.!! "tokens")) as [s|]; [|reflexivity].
    destruct (String.eqb s ""); [reflexivity|discriminate].
Qed.

End Metadata.

(** ** The handler and the store *)

Section StoreCalls.
Context {Σ : Type} `{Webhook.StripeLib}.
Variable inner : Webhook.Storage Σ.
Import Webhook.

(** X6: one delivery calls the store at most once, and exactly when the event
    is a verified checkout-completed event whose payload passes the guard
    of line 41; when it does not call the store, the store is left as it
    was.  Counting the calls changes neither the answer nor the store. *)
Theorem at_most_one_store_call env req (σ : Σ) (n : nat) :
  exists r σ' k,
    deliver (H0 := Instrumented.counting inner) env req (σ, n)
      = (Returned, {| store := (σ', (n + k)%nat); sent := [r] |}) /\
    deliver (H0 := inner) env req σ = (Returned, {| store := σ'; sent := [r] |}) /\
    (k <= 1)%nat /\
    (k = 1%nat <->
       exists event,
         accepts env req event /\
         event_type event = "checkout.session.completed"%string /\
         invalidPayload (data_object event) = false) /\
    (k = 0%nat -> σ' = σ).
Proof.
  destruct (verification_cases env req) as [Hun|[Hrej|[event Hacc]]].
  - exists notConfigured, σ, 0%nat. rewrite Nat.add_0_r.
    rewrite !deliver_unconfigured by exact Hun.
    repeat split; try lia; try discriminate.
    intros (ev & Hev & _). apply accepts_configured in Hev. congruence.
  - exists badSignature, σ, 0%nat. rewrite Nat.add_0_r.
    rewrite !deliver_rejects by exact Hrej.
    repeat split; try lia; try discriminate.
    intros (ev & Hev & _). destruct (accepts_not_rejects _ _ _ Hev Hrej).
  - destruct (String.eqb_spec (event_type event) "checkout.session.completed")
      as [Htype|Htype].
    + destruct (invalidPayload (data_object event)) eqn:Hinv.
      * exists received, σ, 0%nat. rewrite Nat.add_0_r.
        rewrite !(deliver_invalid env req _ event Hacc Htype Hinv).
        repeat split; try lia; try discriminate.
        intros (ev & Hev & _ & Hvalid).
        rewrite <- (accepts_functional _ _ _ _ Hacc Hev) in Hvalid. congruence.
      * rewrite !(deliver_reconciles env req _ event Hacc Htype Hinv). simpl.
        destruct (completeStripePaymentAndCredit (Storage := inner)
                    (session_id (data_object event))
                    (resolveUserId (data_object event))
                    (resolveTokens (data_object event)) σ) as [r σ1].
        eexists _, σ1, 1%nat. rewrite Nat.add_1_r.
        repeat split; try lia; try discriminate.
        intros _. exists event. auto.
    + exists sendStatus200, σ, 0%nat. rewrite Nat.add_0_r.
      rewrite !(deliver_ignores env req _ event Hacc Htype).
      repeat split; try lia; try discriminate.
      intros (ev & Hev & Hty & _).
      rewrite <- (accepts_functional _ _ _ _ Hacc Hev) in Hty. contradiction.
Qed.

End StoreCalls.

Section Acknowledgment.
Context {Σ : Type} `{Webhook.StripeLib} `{Webhook.Storage Σ}.
Import Webhook.

(** X7: whenever the store call returns, the answer is the same 200
    acknowledgment, whether the call reports a new credit or a session
    that was already completed, and the store is the one the call left. *)
Theorem new_and_duplicate_credits_answer_alike env req (σ σ' : Σ) event result :
  accepts env req event ->
  event_type event = "checkout.session.completed"%string ->
  invalidPayload (data_object event) = false ->
  completeStripePaymentAndCredit (session_id (data_object event))
    (resolveUserId (data_object event)) (resolveTokens (data_object event)) σ
    = (inr result, σ') ->
  deliver env req σ = (Returned, {| store := σ'; sent := [received] |}).
Proof.
  intros Hacc Htype Hvalid Hcall.
  rewrite (deliver_reconciles env req σ event Hacc Htype Hvalid), Hcall.
  reflexivity.
Qed.

End Acknowledgment.

(** ** The test for transient errors *)

Section Transient.
Import Webhook.

Lemma prefix_app sub b : String.prefix sub (sub +:+ b) = true.
Proof.
  induction sub as [|c sub IH]; simpl.
  - destruct b; reflexivity.
  - destruct (ascii_dec c c); [exact IH|contradiction].
Qed.

Lemma prefix_inv sub s :
  String.prefix sub s = true -> exists b, s = sub +:+ b.
Proof.
  revert s. induction sub as [|c sub IH]; intros s Hp.
  - exists s. reflexivity.
  - destruct s as [|d s]; [discriminate|]. simpl in Hp.
    destruct (ascii_dec c d) as [->|]; [|discriminate].
    destruct (IH s Hp) as (b & ->). exists b. reflexivity.
Qed.

Lemma append_assoc (a b c : string) : (a +:+ b) +:+ c = a +:+ (b +:+ c).
Proof.
  induction a as [|x a IH]; [reflexivity|].
  change (String x ((a +:+ b) +:+ c) = String x (a +:+ (b +:+ c))).
  f_equal. exact IH.
Qed.

Lemma includes_nil sub :
  Js.includes "" sub = String.prefix sub "" || false.
Proof. reflexivity. Qed.

Lemma includes_cons c s sub :
  Js.includes (String c s) sub = String.prefix sub (String c s) || Js.includes s sub.
Proof. reflexivity. Qed.

(** [includes] finds [sub] exactly when the text is [sub] with something
    before it and something after it. *)
Lemma includes_spec s sub :
  Js.includes s sub = true <-> exists a b, s = a +:+ sub +:+ b.
Proof.
  split.
  - induction s as [|c s IH].
    + rewrite includes_nil, orb_false_r. intros Hp.
      destruct (prefix_inv _ _ Hp) as (b & Hb). exists ""%string, b. exact Hb.
    + rewrite includes_cons. intros Hi. apply orb_true_iff in Hi.
      destruct Hi as [Hp|Hi].
      * destruct (prefix_inv _ _ Hp) as (b & Hb). exists ""%string, b. exact Hb.
      * destruct (IH Hi) as (a & b & ->). exists (String c a), b. reflexivity.
  - intros (a & b & ->). induction a as [|c a IH].
    + change ("" +:+ sub +:+ b) with (sub +:+ b).
      destruct (sub +:+ b) as [|c r] eqn:E.
      * rewrite includes_nil, orb_false_r, <- E. apply prefix_app.
      * rewrite includes_cons, <- E. apply orb_true_iff. left. apply prefix_app.
    + change (String c a +:+ sub +:+ b) with (String c (a +:+ sub +:+ b)).
      rewrite includes_cons. apply orb_true_iff. right. exact IH.
Qed.

(** X8: an error that is taken for transient stays so when text is put before
    and after its message. *)
Theorem wrapping_keeps_an_error_transient e m (before after : string) :
  Js.message e = Some m ->
  isTransient e = true ->
  isTransient {| Js.message := Some (before +:+ m +:+ after); Js.code := Js.code e |} = true.
Proof.
  intros Hm Ht. apply isTransient_spec. apply isTransient_spec in Ht.
  destruct Ht as [(m' & Hm' & Hinc)|Hc]; [|right; exact Hc].
  left. rewrite Hm in Hm'. injection Hm' as <-.
  exists (before +:+ m +:+ after). split; [reflexivity|].
  assert (Hwrap : forall sub, Js.includes m sub = true ->
                    Js.includes (before +:+ m +:+ after) sub = true).
  { intros sub Hi. apply includes_spec in Hi. destruct Hi as (a & b & ->).
    apply includes_spec. exists (before +:+ a), (b +:+ after).
    rewrite !append_assoc. reflexivity. }
  destruct Hinc as [Hi|[Hi|Hi]]; auto.
Qed.

End Transient.

(** ** The request log, the error handler and the port *)

Section ServerRest.
Import Server.





(** The request log on three requests. *)
Example short_line_is_logged_whole :
  requestLog (MoreSamples.finished "/api/me" (Some "[1,2,3]"%string))
  = Some (units "POST /api/me 200 in 12ms :: [1,2,3]").
Proof. reflexivity. Qed.

Example long_line_is_cut :
  requestLog
    (MoreSamples.finished "/api/payment-status/cs_test_a1b2c3d4e5f6g7h8i9j0"
       (Some "[the status is still pending, and so on]"%string))
  = Some (units "POST /api/payment-status/cs_test_a1b2c3d4e5f6g7h8i9j0 200 in 12ms :: [the statu"
          ++ [ellipsis]).
Proof. reflexivity. Qed.

Example other_paths_are_not_logged :
  requestLog (MoreSamples.finished "/assets/app.js" None) = None.
Proof. reflexivity. Qed.

End ServerRest.

(** ** What the user of the button gets to see *)

Section Notifications.
Import StripeButton Rendering.
Variable props : Props.

Lemma seen_app (l1 l2 : list Effect) :
  filter (fun e => visible e = true) (l1 ++ l2) =
  filter (fun e => visible e = true) l1 ++ filter (fun e => visible e = true) l2.
Proof. apply filter_app. Qed.

Lemma polling_is_silent (os : list LookupOutcome) (ui : UI) sid :
  alone sid ui ->
  Forall (fun o => keepsPolling o = true) os ->
  seen (run props (polls os) ui) = seen ui.
Proof.
  intros Hal Hos. revert ui Hal.
  induction Hos as [|o os Ho Hos IH]; intros ui Hal; [reflexivity|].
  change (polls (o :: os)) with (polls [o] ++ polls os). rewrite run_app.
  destruct ui as [pend proc tm aw lg]. destruct Hal as (d & Htm & Haw).
  simpl in Htm, Haw. subst tm aw.
  rewrite (poll_again props pend proc d sid lg o Ho).
  rewrite IH by (exists 2000; split; reflexivity).
  unfold seen. simpl log. rewrite !seen_app. simpl.
  destruct o; simpl; rewrite !app_nil_r; reflexivity.
Qed.

(** X12: while the lookups keep the poller going, nothing the user could
    notice happens, however long that lasts: no toast, no callback; the
    flags stay as they are, so a disabled button stays disabled, and the
    next poll is always scheduled. *)
Theorem waiting_is_silent_and_unbounded (os : list LookupOutcome) (ui : UI) sid :
  alone sid ui ->
  Forall (fun o => keepsPolling o = true) os ->
  seen (run props (polls os) ui) = seen ui /\
  disabled (run props (polls os) ui) = disabled ui /\
  alone sid (run props (polls os) ui) /\
  lookups (run props (polls os) ui) = (lookups ui + length os)%nat.
Proof.
  intros Hal Hos.
  destruct (polling_goes_on props os ui sid Hal Hos) as (Hal' & Hp & Hq & Hl & _).
  split; [exact (polling_is_silent os ui sid Hal Hos)|]. split; [|split; assumption].
  unfold disabled. rewrite Hp, Hq. reflexivity.
Qed.

(** X13: when the session is found completed and [onSuccess] returns (or is
    not given), the user sees exactly one success toast, the balance is
    refreshed once and [onSuccess] is called once, in this order and after
    whatever was seen before; nothing was shown for the polls before;
    polling is over and the button can be clicked again. *)
Theorem success_is_announced_once (pre : list LookupOutcome) (later : list Event)
    (ui : UI) sid :
  alone sid ui ->
  isPending ui = false ->
  onSuccess props <> Some Throws ->
  Forall (fun o => keepsPolling o = true) pre ->
  Click ∉ later ->
  let ui' := run props (polls (pre ++ [LookupStatus "completed"]) ++ later) ui in
  seen ui' =
    seen ui ++ [Toast "Payment successful!"; InvalidateQueries]
    ++ match onSuccess props with Some _ => [CallOnSuccess] | None => [] end /\
  lookups ui' = (lookups ui + S (length pre))%nat /\
  chains ui' = 0%nat /\
  disabled ui' = false.
Proof.
  intros Hal Hpend Hcb Hpre Hlater. cbv zeta.
  rewrite polls_app, !run_app.
  pose proof (polling_is_silent pre ui sid Hal Hpre) as Hseen.
  destruct (polling_goes_on props pre ui sid Hal Hpre)
    as ((d & Htm & Haw) & Hp & _ & Hl & _).
  destruct (run props (polls pre) ui) as [pend proc tm aw lg] eqn:E.
  simpl in Htm, Haw, Hp. subst tm aw. rewrite Hpend in Hp. subst pend.
  destruct (poll_completed props false proc d sid lg Hcb) as (Ht & Ha & Hproc & Hpe & Hlk).
  rewrite (quiet_stays_quiet props later _ Ht Ha Hpe Hlater).
  split; [|split; [|split]].
  - unfold seen in *. simpl in Hseen. rewrite <- Hseen.
    simpl. unfold pollPaymentStatus. simpl.
    destruct (onSuccess props) as [[|]|]; simpl; try congruence;
      rewrite !seen_app; simpl; rewrite ?app_nil_r, <- ?app_assoc; reflexivity.
  - rewrite Hlk. unfold lookups in *. simpl in Hl. rewrite Hl. lia.
  - unfold chains. rewrite Ht, Ha. reflexivity.
  - unfold disabled. rewrite Hpe, Hproc. reflexivity.
Qed.

(** X14: when the session is found failed and [onError] returns (or is not
    given), the user sees exactly one failure toast and [onError] is
    called once; the balance is not refreshed and [onSuccess] is not
    called; polling is over and the button can be clicked again. *)
Theorem failure_is_announced_once (pre : list LookupOutcome) (later : list Event)
    (ui : UI) sid :
  alone sid ui ->
  isPending ui = false ->
  onError props <> Some Throws ->
  Forall (fun o => keepsPolling o = true) pre ->
  Click ∉ later ->
  let ui' := run props (polls (pre ++ [LookupStatus "failed"]) ++ later) ui in
  seen ui' =
    seen ui ++ [Toast "Payment failed"]
    ++ match onError props with Some _ => [CallOnError] | None => [] end /\
  lookups ui' = (lookups ui + S (length pre))%nat /\
  chains ui' = 0%nat /\
  disabled ui' = false.
Proof.
  intros Hal Hpend Hcb Hpre Hlater. cbv zeta.
  rewrite polls_app, !run_app.
  pose proof (polling_is_silent pre ui sid Hal Hpre) as Hseen.
  destruct (polling_goes_on props pre ui sid Hal Hpre)
    as ((d & Htm & Haw) & Hp & _ & Hl & _).
  destruct (run props (polls pre) ui) as [pend proc tm aw lg] eqn:E.
  simpl in Htm, Haw, Hp. subst tm aw. rewrite Hpend in Hp. subst pend.
  destruct (poll_failed props false proc d sid lg Hcb) as (Ht & Ha & Hproc & Hpe & Hlk).
  rewrite (quiet_stays_quiet props later _ Ht Ha Hpe Hlater).
  split; [|split; [|split]].
  - unfold seen in *. simpl in Hseen. rewrite <- Hseen.
    simpl. unfold pollPaymentStatus. simpl.
    destruct (onError props) as [[|]|]; simpl; try congruence;
      rewrite !seen_app; simpl; rewrite ?app_nil_r, <- ?app_assoc; reflexivity.
  - rewrite Hlk. unfold lookups in *. simpl in Hl. rewrite Hl. lia.
  - unfold chains. rewrite Ht, Ha. reflexivity.
  - unfold disabled. rewrite Hpe, Hproc. reflexivity.
Qed.

End Notifications.

(** ** Checkouts that do not get to polling *)

Section NoPolling.
Import StripeButton Rendering.
Variable props : Props.

Lemma checkoutCreated_without_url (data : CheckoutData) (opens : bool) (ui : UI) :
  Js.truthy (url data) = false -> checkoutCreated data opens ui = ui.
Proof.
  unfold Js.truthy, checkoutCreated. destruct (url data) as [u|]; [|reflexivity].
  destruct (String.eqb u ""); [reflexivity|discriminate].
Qed.

(** X15: the popup is blocked: the user is told so, no poll is ever scheduled,
    and the button is back to what it was, ready for another click. *)
Theorem blocked_popup_is_reported (ui : UI) (data : CheckoutData) u (later : list Event) :
  timers ui = [] -> awaiting ui = [] -> disabled ui = false ->
  url data = Some u -> String.eqb u "" = false ->
  Click ∉ later ->
  run props ([Click; MutationSucceeds data false] ++ later) ui =
    {| isPending := false; isProcessing := false; timers := []; awaiting := [];
       log := log ui ++ [CreateCheckout (amount props); WindowOpen u;
                         Toast "Popup blocked"] |}.
Proof.
  intros Ht Ha Hd Hu Hne Hlater.
  destruct ui as [pend proc tm aw lg]. simpl in Ht, Ha. subst tm aw.
  unfold disabled in Hd. simpl in Hd. apply orb_false_iff in Hd.
  destruct Hd as [-> ->].
  rewrite run_app. simpl run at 2. unfold disabled, handleClick, checkoutCreated. simpl.
  rewrite Hu, Hne. simpl.
  rewrite quiet_stays_quiet by (reflexivity || exact Hlater).
  unfold setIsPending, perform. simpl. rewrite <- !app_assoc. reflexivity.
Qed.

(** X16: the response of the checkout creation carries no [url] (or an empty
    one): nothing at all follows, whether a window could have been opened
    or not; no toast, no window, no poll; the button is back to what it
    was. *)
Theorem missing_url_is_dropped_silently (ui : UI) (data : CheckoutData)
    (opens : bool) (later : list Event) :
  timers ui = [] -> awaiting ui = [] -> disabled ui = false ->
  Js.truthy (url data) = false ->
  Click ∉ later ->
  run props ([Click; MutationSucceeds data opens] ++ later) ui =
    {| isPending := false; isProcessing := false; timers := []; awaiting := [];
       log := log ui ++ [CreateCheckout (amount props)] |}.
Proof.
  intros Ht Ha Hd Hu Hlater.
  destruct ui as [pend proc tm aw lg]. simpl in Ht, Ha. subst tm aw.
  unfold disabled in Hd. simpl in Hd. apply orb_false_iff in Hd.
  destruct Hd as [-> ->].
  rewrite run_app.
  change (run props [Click; MutationSucceeds data opens]
            {| isPending := false; isProcessing := false; timers := [];
               awaiting := []; log := lg |})
    with (setIsPending false
            (checkoutCreated data opens
               (handleClick props
                  {| isPending := false; isProcessing := false; timers := [];
                     awaiting := []; log := lg |}))).
  rewrite (checkoutCreated_without_url data opens _ Hu).
  apply quiet_stays_quiet; [reflexivity|reflexivity|reflexivity|exact Hlater].
Qed.

(** X17: the checkout creation fails: the user is told so and [onError] is
    called once (whether or not it then throws); no window, no poll; the
    button is back to what it was. *)
Theorem failed_setup_is_reported (ui : UI) (later : list Event) :
  timers ui = [] -> awaiting ui = [] -> disabled ui = false ->
  Click ∉ later ->
  run props ([Click; MutationFails] ++ later) ui =
    {| isPending := false; isProcessing := false; timers := []; awaiting := [];
       log := log ui ++ [CreateCheckout (amount props);
                         ConsoleError "Stripe checkout error:";
                         Toast "Payment setup failed"]
              ++ match onError props with Some _ => [CallOnError] | None => [] end |}.
Proof.
  intros Ht Ha Hd Hlater.
  destruct ui as [pend proc tm aw lg]. simpl in Ht, Ha. subst tm aw.
  unfold disabled in Hd. simpl in Hd. apply orb_false_iff in Hd.
  destruct Hd as [-> ->].
  rewrite run_app. simpl run at 2. unfold disabled, handleClick, checkoutFailed. simpl.
  destruct (onError props) as [[|]|]; simpl;
    (rewrite quiet_stays_quiet by (reflexivity || exact Hlater));
    unfold setIsPending, perform; simpl; rewrite <- !app_assoc; reflexivity.
Qed.

End NoPolling.

(** ** What holds in every state the button can reach *)

Section Reachable.
Import StripeButton Rendering.
Variable props : Props.

Lemma step_spinner_has_chain e (ui : UI) :
  (isProcessing ui = true -> (1 <= chains ui)%nat) ->
  isProcessing (step props e ui) = true -> (1 <= chains (step props e ui))%nat.
Proof.
  intros Hinv. destruct e as [|data opens| |i|i o]; simpl.
  - destruct (disabled ui); [exact Hinv|]. exact Hinv.
  - destruct (isPending ui); [|exact Hinv]. unfold checkoutCreated.
    destruct (url data) as [u|]; [|exact Hinv].
    destruct (String.eqb u ""); [exact Hinv|].
    destruct opens; simpl.
    + intros _. unfold chains. simpl. rewrite length_app. simpl. lia.
    + exact Hinv.
  - destruct (isPending ui); [|exact Hinv]. unfold checkoutFailed.
    destruct (onError props) as [[|]|]; exact Hinv.
  - destruct (timers ui !! i) as [t|] eqn:Ht; [|exact Hinv]. simpl.
    intros Hq. specialize (Hinv Hq). unfold chains in *. simpl.
    rewrite length_app. simpl.
    pose proof (length_delete_lookup _ _ _ Ht). lia.
  - destruct (awaiting ui !! i) as [sid|] eqn:Ha; [|exact Hinv].
    rewrite pollPaymentStatus_isProcessing.
    destruct (keepsPolling o) eqn:Ho; [|discriminate]. intros _.
    match goal with |- context [pollPaymentStatus props sid o ?u] =>
      destruct (pollPaymentStatus_chains props sid o u) as (_ & Hk & _) end.
    rewrite (Hk Ho). lia.
Qed.

(** X18: the button says that the payment is processing only while a poll is
    scheduled or a lookup is in flight. *)
Theorem spinner_means_a_poll_is_alive (es : list Event) :
  isProcessing (run props es initial) = true ->
  (1 <= chains (run props es initial))%nat.
Proof.
  assert (Hgen : forall ui : UI,
             (isProcessing ui = true -> (1 <= chains ui)%nat) ->
             isProcessing (run props es ui) = true ->
             (1 <= chains (run props es ui))%nat).
  { induction es as [|e es IH]; intros ui Hinv; [exact Hinv|].
    simpl. apply IH. apply step_spinner_has_chain, Hinv. }
  apply Hgen. discriminate.
Qed.

Lemma pollPaymentStatus_windows sid o (ui : UI) :
  windows (pollPaymentStatus props sid o ui) = windows ui.
Proof.
  unfold pollPaymentStatus, windows. destruct o as [|st]; simpl.
  - rewrite filter_app, length_app. simpl. lia.
  - destruct (String.eqb st "completed"); simpl.
    + destruct (onSuccess props) as [[|]|]; simpl;
        rewrite ?filter_app, ?length_app; simpl; lia.
    + destruct (String.eqb st "failed"); simpl; [|reflexivity].
      destruct (onError props) as [[|]|]; simpl;
        rewrite ?filter_app, ?length_app; simpl; lia.
Qed.

(** One step: a window needs a pending checkout, a checkout needs a
    click. *)
Lemma step_windows_attempts e (ui : UI) :
  (windows (step props e ui) + (if isPending (step props e ui) then 1 else 0)
   <= windows ui + (if isPending ui then 1 else 0)
      + (attempts (step props e ui) - attempts ui))%nat /\
  (attempts ui <= attempts (step props e ui)
   <= attempts ui + (if isClick e then 1 else 0))%nat.
Proof.
  destruct e as [|data opens| |i|i o]; simpl.
  - unfold disabled. destruct (isPending ui) eqn:Hp; simpl; [rewrite Hp; lia|].
    destruct (isProcessing ui); simpl; [rewrite Hp; lia|].
    unfold windows, attempts. simpl. rewrite !filter_app, !length_app. simpl. lia.
  - destruct (isPending ui) eqn:Hp; [|rewrite Hp; lia].
    unfold checkoutCreated, windows, attempts.
    destruct (url data) as [u|]; simpl; [|lia].
    destruct (String.eqb u ""); simpl; [lia|].
    destruct opens; simpl; rewrite ?filter_app, ?length_app; simpl; lia.
  - destruct (isPending ui) eqn:Hp; [|rewrite Hp; lia].
    unfold checkoutFailed, windows, attempts.
    destruct (onError props) as [[|]|]; simpl;
      rewrite ?filter_app, ?length_app; simpl; lia.
  - destruct (timers ui !! i); [|lia]. unfold windows, attempts. simpl.
    rewrite !filter_app, !length_app. simpl. lia.
  - destruct (awaiting ui !! i); [|lia].
    rewrite pollPaymentStatus_windows, pollPaymentStatus_attempts,
      pollPaymentStatus_isPending.
    unfold windows, attempts. simpl. lia.
Qed.

(** X19: no checkout window opens without a checkout attempt of its own, and
    no checkout attempt is made without a click of its own: windows never
    outnumber attempts, and attempts never outnumber clicks. *)
Theorem windows_need_attempts_need_clicks (es : list Event) :
  (windows (run props es initial) <= attempts (run props es initial) <= clicks es)%nat.
Proof.
  assert (Hgen : forall ui : UI,
             (windows (run props es ui) + (if isPending (run props es ui) then 1 else 0)
              <= windows ui + (if isPending ui then 1 else 0)
                 + (attempts (run props es ui) - attempts ui))%nat /\
             (attempts ui <= attempts (run props es ui) <= attempts ui + clicks es)%nat).
  { induction es as [|e es IH]; intros ui.
    - simpl. unfold clicks. simpl. lia.
    - simpl. destruct (IH (step props e ui)) as [Hw Ha].
      destruct (step_windows_attempts e ui) as [Hw1 Ha1].
      assert (Hc : clicks (e :: es) = ((if isClick e then 1 else 0) + clicks es)%nat).
      { unfold clicks. rewrite filter_cons.
        destruct (isClick e).
        - rewrite decide_True by reflexivity. reflexivity.
        - rewrite decide_False by discriminate. reflexivity. }
      rewrite Hc. lia. }
  destruct (Hgen initial) as [Hw Ha]. unfold windows, attempts in *.
  simpl in Hw, Ha. destruct (isPending (run props es initial)); lia.
Qed.

(** X20: what the button shows follows its state: the credit-card label
    exactly when it can be clicked, the spinner exactly when it is
    disabled, "Setting up payment..." exactly while the checkout is being
    created and "Payment processing..." exactly while [isProcessing] is
    set. *)
Theorem content_follows_the_state (es : list Event) :
  let ui := run props es initial in
  (content ui = (CreditCard, "Pay with Stripe"%string) <-> disabled ui = false) /\
  (fst (content ui) = Loader2 <-> disabled ui = true) /\
  (snd (content ui) = "Setting up payment..."%string <-> isPending ui = true) /\
  (snd (content ui) = "Payment processing..."%string <-> isProcessing ui = true).
Proof.
  intros ui.
  assert (Hx : isPending ui = true -> isProcessing ui = false).
  { apply run_exclusive. reflexivity. }
  unfold content, disabled.
  destruct (isPending ui), (isProcessing ui); simpl;
    try (specialize (Hx eq_refl); discriminate);
    repeat split; intros; try reflexivity; try discriminate.
Qed.

Lemma pollsOnly_mono ids ids' (ui : UI) :
  (forall sid, sid ∈ ids -> sid ∈ ids') -> pollsOnly ids ui -> pollsOnly ids' ui.
Proof.
  intros Hsub (Ht & Ha & Hl). repeat split.
  - eapply Forall_impl; [exact Ht|]. intros t [Hin Hd]. auto.
  - eapply Forall_impl; [exact Ha|]. auto.
  - eapply Forall_impl; [exact Hl|]. intros [] ?; auto.
Qed.

(** [pollPaymentStatus] starts no lookup, adds at most the 2000 ms timer
    for its own session, and logs no lookup. *)
Lemma pollPaymentStatus_shape sid o (ui : UI) :
  awaiting (pollPaymentStatus props sid o ui) = awaiting ui /\
  (timers (pollPaymentStatus props sid o ui) = timers ui \/
   timers (pollPaymentStatus props sid o ui)
     = timers ui ++ [{| delay := 2000; sessionId := sid |}]) /\
  exists extra,
    log (pollPaymentStatus props sid o ui) = log ui ++ extra /\
    Forall (fun e => isLookup e = false) extra.
Proof.
  unfold pollPaymentStatus. destruct o as [|st].
  - split; [reflexivity|]. split; [right; reflexivity|].
    eexists. split; [reflexivity|]. repeat constructor.
  - destruct (String.eqb st "completed").
    + destruct (onSuccess props) as [[|]|]; simpl;
        (split; [reflexivity|]); (split; [auto|]);
        rewrite <- ?app_assoc; eexists; (split; [reflexivity|]); repeat constructor.
    + destruct (String.eqb st "failed").
      * destruct (onError props) as [[|]|]; simpl;
          (split; [reflexivity|]); (split; [auto|]);
          rewrite <- ?app_assoc; eexists; (split; [reflexivity|]); repeat constructor.
      * split; [reflexivity|]. split; [right; reflexivity|].
        exists []. split; [symmetry; apply app_nil_r|constructor].
Qed.

Lemma pollPaymentStatus_pollsOnly ids sid o (ui : UI) :
  sid ∈ ids -> pollsOnly ids ui -> pollsOnly ids (pollPaymentStatus props sid o ui).
Proof.
  intros Hsid (Ht & Ha & Hl).
  destruct (pollPaymentStatus_shape sid o ui) as (Haw & Htm & extra & Hlog & Hex).
  unfold pollsOnly. rewrite Haw, Hlog. split; [|split].
  - destruct Htm as [->| ->]; [exact Ht|].
    apply Forall_app. split; [exact Ht|].
    constructor; [|constructor]. split; [exact Hsid|right; reflexivity].
  - exact Ha.
  - apply Forall_app. split; [exact Hl|].
    eapply Forall_impl; [exact Hex|]. intros [] He; try exact I. discriminate.
Qed.

Lemma step_pollsOnly ids e (ui : UI) :
  pollsOnly ids ui -> pollsOnly (ids ++ created [e]) (step props e ui).
Proof.
  intros Hinv.
  assert (Hsub : forall sid, sid ∈ ids -> sid ∈ ids ++ created [e]).
  { intros sid Hin. apply elem_of_app. left. exact Hin. }
  pose proof (pollsOnly_mono _ _ ui Hsub Hinv) as Hinv'.
  destruct e as [|data opens| |i|i o]; simpl step.
  - destruct (disabled ui); [exact Hinv'|].
    destruct Hinv' as (Ht & Ha & Hl). repeat split; simpl; try assumption.
    apply Forall_app. split; [exact Hl|]. repeat constructor.
  - destruct (isPending ui); [|exact Hinv'].
    destruct Hinv' as (Ht & Ha & Hl). unfold checkoutCreated.
    destruct (url data) as [u|]; [|repeat split; assumption].
    destruct (String.eqb u ""); [repeat split; assumption|].
    destruct opens; repeat split; simpl; try assumption.
    + apply Forall_app. split; [exact Ht|].
      constructor; [|constructor]. split; [|left; reflexivity].
      apply elem_of_app. right. simpl. left.
    + apply Forall_app. split; [exact Hl|]. repeat constructor.
    + repeat (apply Forall_app; split); try exact Hl; repeat constructor.
  - destruct (isPending ui); [|exact Hinv'].
    destruct Hinv' as (Ht & Ha & Hl). unfold checkoutFailed.
    destruct (onError props) as [[|]|]; repeat split; simpl; try assumption;
      repeat (apply Forall_app; split); try exact Hl; repeat constructor.
  - destruct (timers ui !! i) as [t|] eqn:Hti; [|exact Hinv'].
    destruct Hinv' as (Ht & Ha & Hl).
    assert (Hin : sessionId t ∈ ids ++ created [TimerFires i]).
    { apply (Forall_lookup_1 _ _ _ _ Ht Hti). }
    repeat split; simpl.
    + apply Forall_delete, Ht.
    + apply Forall_app. split; [exact Ha|]. repeat constructor. exact Hin.
    + apply Forall_app. split; [exact Hl|]. repeat constructor. exact Hin.
  - destruct (awaiting ui !! i) as [sid|] eqn:Hai; [|exact Hinv'].
    destruct Hinv' as (Ht & Ha & Hl).
    apply pollPaymentStatus_pollsOnly.
    + apply (Forall_lookup_1 _ _ _ _ Ha Hai).
    + repeat split; simpl; [exact Ht| |exact Hl]. apply Forall_delete, Ha.
Qed.

Lemma run_pollsOnly (es : list Event) ids (ui : UI) :
  pollsOnly ids ui -> pollsOnly (ids ++ created es) (run props es ui).
Proof.
  revert ids ui. induction es as [|e es IH]; intros ids ui Hinv.
  - simpl. eapply pollsOnly_mono; [|exact Hinv].
    intros sid Hin. apply elem_of_app. left. exact Hin.
  - simpl run. eapply pollsOnly_mono; [|apply IH, step_pollsOnly, Hinv].
    intros sid Hin. change (e :: es) with ([e] ++ es).
    unfold created in *. rewrite flat_map_app.
    rewrite <- app_assoc in Hin. exact Hin.
Qed.

Lemma pollsOnly_initial : pollsOnly [] initial.
Proof. repeat split; constructor. Qed.

(** X21: the poller only ever asks about sessions that a checkout
    creation came back with: every status lookup made, in flight or
    scheduled is for one of them. *)
Theorem lookups_are_for_created_sessions (es : list Event) :
  let ui := run props es initial in
  (forall sid, StatusLookup sid ∈ log ui -> sid ∈ created es) /\
  (forall sid, sid ∈ awaiting ui -> sid ∈ created es) /\
  (forall t, t ∈ timers ui -> sessionId t ∈ created es).
Proof.
  destruct (run_pollsOnly es [] initial pollsOnly_initial) as (Ht & Ha & Hl).
  simpl in Ht, Ha, Hl. cbv zeta. repeat split.
  - intros sid Hin. apply (proj1 (Forall_forall _ _) Hl _ Hin).
  - intros sid Hin. apply (proj1 (Forall_forall _ _) Ha _ Hin).
  - intros t Hin. apply (proj1 (Forall_forall _ _) Ht _ Hin).
Qed.

(** X22: every poll is scheduled 3000 ms ahead (the first one of a
    checkout) or 2000 ms ahead (all later ones), never sooner. *)
Theorem polls_wait_two_or_three_seconds (es : list Event) :
  forall t, t ∈ timers (run props es initial) -> delay t = 3000 \/ delay t = 2000.
Proof.
  destruct (run_pollsOnly es [] initial pollsOnly_initial) as (Ht & _).
  intros t Hin. apply (proj1 (Forall_forall _ _) Ht _ Hin).
Qed.

End Reachable.

(** ** The further properties at concrete inputs *)

Section FurtherDeliveries.
Import Webhook.




Lemma user_id_takes_precedence_witness :
  let w := {| store := ([] : list (string * Js.JsNum * Js.JsNum)); sent := [] |} in
  let md : gmap string string :=
    <["user_id" := "42"%string]> {[ "tokens"%string := "1000"%string ]} in
  reconcile (H0 := Doubles.recording)
    {| event_id := "evt_1"; event_type := "checkout.session.completed";
       data_object := {| session_id := "cs_1"; metadata := Some md;
                         client_reference_id := Some "7"%string |} |} w
  = reconcile (H0 := Doubles.recording)
      {| event_id := "evt_1"; event_type := "checkout.session.completed";
         data_object := {| session_id := "cs_1"; metadata := Some md;
                           client_reference_id := None |} |} w.
Proof.
  exact (user_id_takes_precedence (H0 := Doubles.recording) "cs_1"
           (<["user_id" := "42"%string]> {[ "tokens"%string := "1000"%string ]})
           "42" (Some "7"%string) None "checkout.session.completed" "evt_1"
           {| store := []; sent := [] |} eq_refl eq_refl).
Defined.

Lemma missing_user_or_tokens_acknowledged_witness :
  deliver (H := Doubles.stripe (inr MoreSamples.anonymous)) (H0 := Doubles.recording)
          Sample.env Sample.req []
  = (Returned, {| store := []; sent := [received] |}).
Proof.
  exact (missing_user_or_tokens_acknowledged
           (H := Doubles.stripe (inr MoreSamples.anonymous)) (H0 := Doubles.recording)
           Sample.env Sample.req [] MoreSamples.anonymous (stand_in_accepts _) eq_refl
           (or_introl (conj eq_refl eq_refl))).
Defined.

Lemma new_and_duplicate_credits_answer_alike_witness :
  let σ1 := snd (SessionStore.completeAndCredit "cs_1" 42 1000 Sample.store) in
  deliver (H := Doubles.stripe (inr (Sample.checkout "cs_1" "42" "1000")))
          (H0 := SessionStore.storage) Sample.env Sample.req Sample.store
  = (Returned, {| store := σ1; sent := [received] |}) /\
  deliver (H := Doubles.stripe (inr (Sample.checkout "cs_1" "42" "1000")))
          (H0 := SessionStore.storage) Sample.env Sample.req σ1
  = (Returned, {| store := σ1; sent := [received] |}).
Proof.
  split.
  - exact (new_and_duplicate_credits_answer_alike
             (H := Doubles.stripe (inr (Sample.checkout "cs_1" "42" "1000")))
             (H0 := SessionStore.storage) Sample.env Sample.req Sample.store
             (snd (SessionStore.completeAndCredit "cs_1" 42 1000 Sample.store))
             (Sample.checkout "cs_1" "42" "1000")
             {| alreadyCompleted := false; newBalance := 1010 |}
             (stand_in_accepts _) eq_refl eq_refl eq_refl).
  - exact (new_and_duplicate_credits_answer_alike
             (H := Doubles.stripe (inr (Sample.checkout "cs_1" "42" "1000")))
             (H0 := SessionStore.storage) Sample.env Sample.req
             (snd (SessionStore.completeAndCredit "cs_1" 42 1000 Sample.store))
             (snd (SessionStore.completeAndCredit "cs_1" 42 1000 Sample.store))
             (Sample.checkout "cs_1" "42" "1000")
             {| alreadyCompleted := true; newBalance := 1010 |}
             (stand_in_accepts _) eq_refl eq_refl eq_refl).
Defined.

Lemma wrapping_keeps_an_error_transient_witness :
  isTransient Sample.connectionRefused = true /\
  isTransient
    {| Js.message := Some "Error: connect ECONNREFUSED 127.0.0.1:5432 (giving up)"%string;
       Js.code := Some "ECONNREFUSED"%string |} = true.
Proof.
  split; [reflexivity|].
  exact (wrapping_keeps_an_error_transient Sample.connectionRefused
           "connect ECONNREFUSED 127.0.0.1:5432" "Error: " " (giving up)"
           eq_refl eq_refl).
Defined.

End FurtherDeliveries.

Section FurtherButtonRuns.
Import StripeButton Rendering.

Lemma started_alone : alone "cs_1" (started quietProps "cs_1").
Proof. exists 3000. split; reflexivity. Qed.

Lemma two_polls_keep_going :
  Forall (fun o => keepsPolling o = true) [LookupStatus "pending"; LookupThrows].
Proof. repeat constructor. Qed.

Lemma no_click_in_nil : Click ∉ ([] : list Event).
Proof. apply not_elem_of_nil. Qed.

Lemma waiting_is_silent_and_unbounded_witness :
  let ui := run quietProps (polls [LookupStatus "pending"; LookupThrows])
              (started quietProps "cs_1") in
  seen ui = seen (started quietProps "cs_1") /\
  disabled ui = true /\
  lookups ui = 2%nat.
Proof.
  destruct (waiting_is_silent_and_unbounded quietProps
              [LookupStatus "pending"; LookupThrows] (started quietProps "cs_1") "cs_1"
              started_alone two_polls_keep_going) as (Hs & Hd & _ & Hl).
  split; [exact Hs|]. split; [exact Hd|exact Hl].
Defined.

Lemma success_is_announced_once_witness :
  let ui := run quietProps
              (polls ([LookupStatus "pending"; LookupThrows] ++ [LookupStatus "completed"]) ++ [])
              (started quietProps "cs_1") in
  seen ui = [CreateCheckout "9.99"; WindowOpen "https://checkout";
             Toast "Payment successful!"; InvalidateQueries; CallOnSuccess] /\
  lookups ui = 3%nat /\ chains ui = 0%nat /\ disabled ui = false.
Proof.
  assert (Hcb : onSuccess quietProps <> Some Throws) by discriminate.
  exact (success_is_announced_once quietProps [LookupStatus "pending"; LookupThrows] []
           (started quietProps "cs_1") "cs_1" started_alone eq_refl Hcb
           two_polls_keep_going no_click_in_nil).
Defined.

Lemma failure_is_announced_once_witness :
  let ui := run quietProps
              (polls ([LookupStatus "pending"; LookupThrows] ++ [LookupStatus "failed"]) ++ [])
              (started quietProps "cs_1") in
  seen ui = [CreateCheckout "9.99"; WindowOpen "https://checkout";
             Toast "Payment failed"; CallOnError] /\
  lookups ui = 3%nat /\ chains ui = 0%nat /\ disabled ui = false.
Proof.
  assert (Hcb : onError quietProps <> Some Throws) by discriminate.
  exact (failure_is_announced_once quietProps [LookupStatus "pending"; LookupThrows] []
           (started quietProps "cs_1") "cs_1" started_alone eq_refl Hcb
           two_polls_keep_going no_click_in_nil).
Defined.

Lemma blocked_popup_is_reported_witness :
  run quietProps
    ([Click; MutationSucceeds {| url := Some "https://checkout"; data_sessionId := "cs_1" |}
               false] ++ []) initial
  = {| isPending := false; isProcessing := false; timers := []; awaiting := [];
       log := [CreateCheckout "9.99"; WindowOpen "https://checkout";
               Toast "Popup blocked"] |}.
Proof.
  exact (blocked_popup_is_reported quietProps initial
           {| url := Some "https://checkout"; data_sessionId := "cs_1" |}
           "https://checkout" [] eq_refl eq_refl eq_refl eq_refl eq_refl
           no_click_in_nil).
Defined.

Lemma missing_url_is_dropped_silently_witness :
  run quietProps
    ([Click; MutationSucceeds {| url := None; data_sessionId := "cs_1" |} true] ++ [])
    initial
  = {| isPending := false; isProcessing := false; timers := []; awaiting := [];
       log := [CreateCheckout "9.99"] |}.
Proof.
  exact (missing_url_is_dropped_silently quietProps initial
           {| url := None; data_sessionId := "cs_1" |} true []
           eq_refl eq_refl eq_refl eq_refl no_click_in_nil).
Defined.

Lemma failed_setup_is_reported_witness :
  run quietProps ([Click; MutationFails] ++ []) initial
  = {| isPending := false; isProcessing := false; timers := []; awaiting := [];
       log := [CreateCheckout "9.99"; ConsoleError "Stripe checkout error:";
               Toast "Payment setup failed"; CallOnError] |}.
Proof.
  exact (failed_setup_is_reported quietProps initial [] eq_refl eq_refl eq_refl
           no_click_in_nil).
Defined.

Lemma spinner_means_a_poll_is_alive_witness :
  let es := [Click;
             MutationSucceeds {| url := Some "https://checkout"; data_sessionId := "cs_1" |}
               true;
             TimerFires 0] in
  isProcessing (run quietProps es initial) = true /\
  (1 <= chains (run quietProps es initial))%nat.
Proof.
  split; [reflexivity|].
  exact (spinner_means_a_poll_is_alive quietProps
           [Click;
            MutationSucceeds {| url := Some "https://checkout"; data_sessionId := "cs_1" |}
              true;
            TimerFires 0] eq_refl).
Defined.

End FurtherButtonRuns.

Section FurtherInvariantRuns.
Import StripeButton Rendering.

Lemma polls_wait_two_or_three_seconds_witness :
  delay {| delay := 3000; sessionId := "cs_1" |} = 3000 \/
  delay {| delay := 3000; sessionId := "cs_1" |} = 2000.
Proof.
  exact (polls_wait_two_or_three_seconds quietProps
           [Click;
            MutationSucceeds {| url := Some "https://checkout"; data_sessionId := "cs_1" |}
              true]
           {| delay := 3000; sessionId := "cs_1" |}
           (list_elem_of_here _ _)).
Defined.

End FurtherInvariantRuns.
